(** * ook.object_type: creation and validation of Ook types and objects

    A shallow embedding of [src/ook/object_type.py] (Python 2) and the
    properties of its three entry points: [create_ook_type],
    [validate_object] and [validate_value].

    Python objects live in a heap of cells addressed by location, so that
    object identity (two names for one schema object) and mutation are
    visible.  The functions of the module are computations in a state and
    exception monad over that heap. *)

From stdpp Require Import base option list gmap strings.

Open Scope string_scope.
Open Scope list_scope.

(** ** Python values and heap cells *)

(** A Python value: the scalars the module tests for, or a reference to a
    heap cell.
    - [VStr s] is a [str] as a literal denotes it; the empty one, [VStr ""],
      is the very object the literal [''] of line 95 denotes.
    - [VEmptyUnicode] is the empty [unicode] string [u'']: a [basestring] of
      length 0 that equals [''] and is not that object.  Other [unicode]
      strings are left out (how they compare with the [str] names of a
      schema is not modelled). *)
Inductive PyVal : Type :=
| VNone
| VBool (b : bool)
| VInt (z : Z)
| VStr (s : string)
| VEmptyUnicode
| VRef (l : nat).

(** Modelled from the spec: [meta_type.PropertySchema] is not among the source
    files.  The fields are the attributes of a property rule: the kind tag,
    the required flag, the allowed literals, the bounds and the nested
    schema. *)
Record PropertySchema : Type := {
  property_type : option string;
  required : bool;
  enum : option (list PyVal);
  rule_min : option Z;
  rule_max : option Z;
  nested_schema : option nat
}.

(** The classes the module names, and the classes made at run time. *)
Inductive TypeRef : Type :=
| T_object
| T_dict
| T_SchemaType
| T_ObjectType
| T_user (c : nat).

(** Modelled from the spec: [SchemaType] is not among the source files; a
    schema is an ordered mapping from property names to rules, kept here in
    the order [iteritems] yields them.  The heap cells:
    - [CDict]: an instance of the built-in [dict].
    - [CSchemaType]: an instance of [SchemaType].
    - [CType]: a class object as [type(name, bases, dict)] builds it.
    - [CObject]: an instance of class [cls] with its mapping storage. *)
Inductive Cell : Type :=
| CDict (items : gmap string PyVal)
| CSchemaType (rules : list (string * PropertySchema))
| CType (name : string) (bases : list TypeRef) (attrs : gmap string PyVal)
| CObject (cls : TypeRef) (items : gmap string PyVal).

(** A validation error is a message ([:rtype: list<str>]). *)
Definition Violation : Type := string.

(** The exceptions the module raises or lets through. *)
Inductive Exn : Type :=
| ValueError (msg : string)
| ValidationException (value_errors : list Violation)
| TypeError (msg : string)
| AttributeError (msg : string).

Inductive Outcome (A : Type) : Type :=
| Return (a : A)
| Raise (e : Exn).
Arguments Return {A} a.
Arguments Raise {A} e.

(** One recorded call of [meta_type.validate_value]. *)
Definition Call : Type := string * PropertySchema * PyVal.

(** The state a computation runs in: the heap, and the log of the calls made
    to the per-value validator (a ghost component: no function reads it). *)
Record State : Type := mkState {
  heap : list Cell;
  calls : list Call
}.

(** ** The state and exception monad *)

Definition M (A : Type) : Type := State -> Outcome A * State.

Definition ret {A} (a : A) : M A := fun st => (Return a, st).

Definition raise {A} (e : Exn) : M A := fun st => (Raise e, st).

Definition bind {A B} (m : M A) (k : A -> M B) : M B :=
  fun st =>
    match m st with
    | (Return a, st') => k a st'
    | (Raise e, st') => (Raise e, st')
    end.

Notation "x <- m ;; k" := (bind m (fun x => k))
  (at level 100, m at next level, right associativity,
   format "'[v' x  <-  m  ;;  '/' k ']'").
Notation "m ;;; k" := (bind m (fun _ => k))
  (at level 100, right associativity).

(** Read the heap. *)
Definition gets {A} (f : list Cell -> A) : M A :=
  fun st => (Return (f (heap st)), st).

(** Allocate a cell at the next free location. *)
Definition alloc (c : Cell) : M nat :=
  fun st => (Return (length (heap st)),
             mkState (heap st ++ [c]) (calls st)).

(** Overwrite the cell at a location. *)
Definition store (l : nat) (c : Cell) : M unit :=
  fun st => (Return tt, mkState (<[l := c]> (heap st)) (calls st)).

(** [for name in items: body], threading the local the body updates. *)
Fixpoint for_in {A B} (items : list A) (body : A -> B -> M B) (acc : B) : M B :=
  match items with
  | [] => ret acc
  | x :: rest => acc' <- body x acc ;; for_in rest body acc'
  end.

(** ** The Python object model *)

Definition TypeRef_eqb (a b : TypeRef) : bool :=
  match a, b with
  | T_object, T_object => true
  | T_dict, T_dict => true
  | T_SchemaType, T_SchemaType => true
  | T_ObjectType, T_ObjectType => true
  | T_user c, T_user d => Nat.eqb c d
  | _, _ => false
  end.

(** Modelled from the spec: [MetaType] and [SchemaType] are not among the
    source files; a record is a mapping container and a schema is a mapping,
    so [ObjectType] and [SchemaType] derive from [dict].  The direct bases of
    a class: *)
Definition bases_of (h : list Cell) (t : TypeRef) : list TypeRef :=
  match t with
  | T_object => []
  | T_dict => [T_object]
  | T_SchemaType => [T_dict]
  | T_ObjectType => [T_dict]
  | T_user c =>
      match h !! c with
      | Some (CType _ bases _) => bases
      | _ => []
      end
  end.

Fixpoint issubclass_fuel (fuel : nat) (h : list Cell) (t target : TypeRef) : bool :=
  TypeRef_eqb t target ||
  match fuel with
  | O => false
  | S fuel' => existsb (fun b => issubclass_fuel fuel' h b target) (bases_of h t)
  end.

(** A class chain is never longer than the heap plus the built-in classes. *)
Definition issubclass (h : list Cell) (t target : TypeRef) : bool :=
  issubclass_fuel (3 + length h) h t target.

(** The class of the object a value denotes, when it is one of the classes
    of the model. *)
Definition type_of (h : list Cell) (v : PyVal) : option TypeRef :=
  match v with
  | VRef l =>
      match h !! l with
      | Some (CDict _) => Some T_dict
      | Some (CSchemaType _) => Some T_SchemaType
      | Some (CObject cls _) => Some cls
      | _ => None
      end
  | _ => None
  end.

(** [isinstance(v, target)] *)
Definition isinstance_in (h : list Cell) (v : PyVal) (target : TypeRef) : bool :=
  match type_of h v with
  | Some t => issubclass h t target
  | None => false
  end.

Definition isinstance (v : PyVal) (target : TypeRef) : M bool :=
  gets (fun h => isinstance_in h v target).

(** Attribute lookup on a class: its own namespace, then its bases. *)
Fixpoint class_attr_fuel (fuel : nat) (h : list Cell) (t : TypeRef) (attr : string)
  : option PyVal :=
  match fuel with
  | O => None
  | S fuel' =>
      match t with
      | T_user c =>
          match h !! c with
          | Some (CType _ bases attrs) =>
              match attrs !! attr with
              | Some v => Some v
              | None => head (omap (fun b => class_attr_fuel fuel' h b attr) bases)
              end
          | _ => None
          end
      | _ => None
      end
  end.

Definition class_attr (h : list Cell) (t : TypeRef) (attr : string) : option PyVal :=
  class_attr_fuel (S (length h)) h t attr.

(** A heap is well formed when the bases of a class were made before it. *)
Definition heap_wf (h : list Cell) : Prop :=
  forall c name bases attrs,
    h !! c = Some (CType name bases attrs) ->
    forall b, In (T_user b) bases -> b < c.

(** The fuel a class needs for its whole chain of bases. *)
Definition rank (h : list Cell) (t : TypeRef) : nat :=
  match t with
  | T_object => 0
  | T_dict => 1
  | T_SchemaType => 2
  | T_ObjectType => 2
  | T_user c =>
      match h !! c with
      | Some (CType _ _ _) => 3 + c
      | _ => 0
      end
  end.

(** Modelled from the spec: [MetaType.get_schema] is not among the source
    files.  It returns the Schema bound to the type of the instance, the one
    [create_ook_type] stores in the attribute [OOK_SCHEMA]; where no type of
    the chain binds one there is no schema to return. *)
Definition get_schema_in (h : list Cell) (v : PyVal) : Outcome PyVal :=
  match v with
  | VRef l =>
      match h !! l with
      | Some (CObject cls _) =>
          match class_attr h cls "OOK_SCHEMA" with
          | Some s => Return s
          | None => Raise (AttributeError "OOK_SCHEMA")
          end
      | _ => Raise (AttributeError "get_schema")
      end
  | _ => Raise (AttributeError "get_schema")
  end.

Definition get_schema (v : PyVal) : M PyVal :=
  fun st => (get_schema_in (heap st) v, st).

(** The rules of a schema object. *)
Definition schema_rules (h : list Cell) (schema : PyVal)
  : option (list (string * PropertySchema)) :=
  match schema with
  | VRef l =>
      match h !! l with
      | Some (CSchemaType rules) => Some rules
      | _ => None
      end
  | _ => None
  end.

(** [schema.iteritems()].  The schema bound to a type is a [SchemaType]
    ([create_ook_type] coerces it to one); any other value has no rules to
    yield. *)
Definition iteritems (schema : PyVal) : M (list (string * PropertySchema)) :=
  fun st =>
    match schema_rules (heap st) schema with
    | Some rules => (Return rules, st)
    | None => (Raise (AttributeError "iteritems"), st)
    end.

(** First rule stored under a name. *)
Fixpoint rule_of (rules : list (string * PropertySchema)) (name : string)
  : option PropertySchema :=
  match rules with
  | [] => None
  | (n, r) :: rest => if String.eqb n name then Some r else rule_of rest name
  end.

(** [schema.get(name)]: the rule, or [None] (Python's None) when the schema
    has none under that name. *)
Definition schema_get (schema : PyVal) (name : string) : M (option PropertySchema) :=
  fun st =>
    match schema_rules (heap st) schema with
    | Some rules => (Return (rule_of rules name), st)
    | None => (Raise (AttributeError "get"), st)
    end.

(** The mapping storage of a dict or of a record. *)
Definition items_of (h : list Cell) (v : PyVal) : option (gmap string PyVal) :=
  match v with
  | VRef l =>
      match h !! l with
      | Some (CDict items) => Some items
      | Some (CObject _ items) => Some items
      | _ => None
      end
  | _ => None
  end.

(** [d.get(name, default)] on a mapping storage. *)
Definition get_default (items : gmap string PyVal) (name : string) (default : PyVal)
  : PyVal :=
  match items !! name with
  | Some v => v
  | None => default
  end.

(** [the_object.get(name, default)] *)
Definition dict_get (v : PyVal) (name : string) (default : PyVal) : M PyVal :=
  fun st =>
    match items_of (heap st) v with
    | Some items => (Return (get_default items name default), st)
    | None => (Raise (AttributeError "get"), st)
    end.

(** [type(name, bases, dict)]: a new class object.  The name has to be a
    [str]; Python 2 refuses a [unicode] name like any other value. *)
Definition type_new (name : PyVal) (bases : list TypeRef) (attrs : gmap string PyVal)
  : M PyVal :=
  match name with
  | VStr s => c <- alloc (CType s bases attrs) ;; ret (VRef c)
  | _ => raise (TypeError "type() argument 1 must be string")
  end.

(** [cls.attr = v] *)
Definition setattr (cls : PyVal) (attr : string) (v : PyVal) : M unit :=
  fun st =>
    match cls with
    | VRef c =>
        match heap st !! c with
        | Some (CType n bs attrs) => store c (CType n bs (<[attr := v]> attrs)) st
        | _ => (Raise (AttributeError attr), st)
        end
    | _ => (Raise (AttributeError attr), st)
    end.

(** Truth value of a list: non-empty. *)
Definition truthy {A} (l : list A) : bool :=
  match l with
  | [] => false
  | _ :: _ => true
  end.

Definition is_None (v : PyVal) : bool :=
  match v with
  | VNone => true
  | _ => false
  end.

(** [name is '']: a test of identity, not of equality.  It holds of the
    object the literal denotes, [VStr ""], and of nothing else: the empty
    [unicode] string equals [''] and is another object. *)
Definition is_empty_str (v : PyVal) : bool :=
  match v with
  | VStr "" => true
  | _ => false
  end.

(** The double quote character, for the messages that quote a name. *)
Definition dq : string := String (Ascii.ascii_of_nat 34) EmptyString.

(** ** A concrete setting, for the examples *)

(** A per-value validator that checks the required flag only: an absent
    value violates a required rule, anything else passes. *)
Definition required_check
    (h : list Cell) (name : string) (rule : PropertySchema) (value : PyVal)
  : list Violation :=
  if is_None value && required rule then ["The value for " +:+ name +:+ " is required."]
  else [].

Definition rule_any (req : bool) : PropertySchema :=
  {| property_type := None; required := req; enum := None;
     rule_min := None; rule_max := None; nested_schema := None |}.

(** A schema constructor that accepts the empty mapping only. *)
Definition init_empty_only (h : list Cell) (items : gmap string PyVal)
  : Exn + list (string * PropertySchema) :=
  if decide (items = ∅) then inr [] else inl (ValueError "bad schema").

(** The heap of the module's usage example: the schema of [MyType], the class,
    an instance that lacks [some_property], a plain empty dict, and an
    instance that stores None under [some_property]. *)
Definition demo_heap : list Cell :=
  [ CSchemaType [("some_property", rule_any true); ("other_property", rule_any false)];
    CType "MyType" [T_ObjectType] {["OOK_SCHEMA" := VRef 0]};
    CObject (T_user 1) {["other_property" := VStr "Enum1"]};
    CDict ∅;
    CObject (T_user 1) (<["some_property" := VNone]> {["other_property" := VStr "Enum1"]}) ].

Definition demo_state : State := mkState demo_heap [].

(** ** The module [ook.object_type] *)

Section object_type.

(** [meta_type.validate_value(property_name, property_schema, value)] is not
    among the source files: it is a parameter.  Modelled from the spec: a
    function of the rule and the value (and of what the value refers to in
    the heap) that returns the list of violations and changes nothing. *)
Variable meta_validate_value :
  list Cell -> string -> PropertySchema -> PyVal -> list Violation.

(** The constructor [SchemaType(mapping)] is not among the source files: what
    it makes of the entries of a plain mapping is a parameter.  Modelled
    from the spec: it turns the rule descriptions into rules, or fails. *)
Variable SchemaType_init :
  list Cell -> gmap string PyVal -> Exn + list (string * PropertySchema).

(** The call [meta_type.validate_value(name, rule, value)], logged. *)
Definition meta_type_validate_value
    (property_name : string) (property_schema : PropertySchema) (value : PyVal)
  : M (list Violation) :=
  fun st =>
    (Return (meta_validate_value (heap st) property_name property_schema value),
     mkState (heap st) (calls st ++ [(property_name, property_schema, value)])).

(** [SchemaType(schema)] on a mapping that is not a [SchemaType]: a fresh
    schema object. *)
Definition SchemaType_new (schema : PyVal) : M PyVal :=
  fun st =>
    match items_of (heap st) schema with
    | Some items =>
        match SchemaType_init (heap st) items with
        | inr rules => (l <- alloc (CSchemaType rules) ;; ret (VRef l)) st
        | inl e => (Raise e, st)
        end
    | None => (Raise (TypeError "SchemaType"), st)
    end.

(** Lines 82-109. *)
Definition create_ook_type (name schema : PyVal) : M PyVal :=
  if is_None name || is_empty_str name then
    raise (ValueError ("The string " +:+ dq +:+ "name" +:+ dq +:+ " argument is required."))
  else if is_None schema then
    raise (ValueError "The schema dictionary is required.")
  else
    is_dict <- isinstance schema T_dict ;;
    if negb is_dict then
      raise (ValueError "The schema must be a dict or SchemaType.")
    else
      ook_type <- type_new name [T_ObjectType] ∅ ;;
      is_schema <- isinstance schema T_SchemaType ;;
      schema' <- (if negb is_schema then SchemaType_new schema else ret schema) ;;
      setattr ook_type "OOK_SCHEMA" schema' ;;;
      ret ook_type.

(** Lines 112-147. *)
Definition validate_object (the_object : PyVal) (raise_value_error : bool)
  : M (list Violation) :=
  is_ook <- isinstance the_object T_ObjectType ;;
  if negb is_ook then
    raise (ValueError ("Validation can only support validation of objects derived from "
                       +:+ "ook.object_type.ObjectType."))
  else
    schema <- get_schema the_object ;;
    items <- iteritems schema ;;
    value_errors <-
      for_in items
        (fun '(property_name, property_schema) value_errors =>
           value <- dict_get the_object property_name VNone ;;
           errors <- meta_type_validate_value property_name property_schema value ;;
           ret (value_errors ++ errors))
        [] ;;
    if truthy value_errors && raise_value_error then
      raise (ValidationException value_errors)
    else
      ret value_errors.

(** Lines 150-197. *)
Definition validate_value
    (property_name ook_object : PyVal) (raise_validation_error : bool)
  : M (list Violation) :=
  match property_name with
  | VNone =>
      raise (ValueError (dq +:+ "property_name" +:+ dq +:+ " is required, cannot be None."))
  | VStr name =>
      if (String.length name <? 1)%nat then
        raise (ValueError (dq +:+ "property_name" +:+ dq +:+ " is not a valid string."))
      else if is_None ook_object then
        raise (ValueError (dq +:+ "ook_object" +:+ dq +:+ " is required, cannot be None."))
      else
        is_ook <- isinstance ook_object T_ObjectType ;;
        if negb is_ook then
          raise (ValueError (dq +:+ "ook_object" +:+ dq
                             +:+ " must be ObjectType or child type of ObjectType."))
        else
          schema <- get_schema ook_object ;;
          property_schema <- schema_get schema name ;;
          match property_schema with
          | None =>
              raise (ValueError (dq +:+ "property_name" +:+ dq
                                 +:+ " is not a recognized property."))
          | Some property_schema =>
              value <- dict_get ook_object name VNone ;;
              errors <- meta_type_validate_value name property_schema value ;;
              let value_errors := [] ++ errors in
              if truthy value_errors && raise_validation_error then
                raise (ValidationException value_errors)
              else
                ret value_errors
          end
  | VEmptyUnicode =>
      (* a basestring, of length 0 *)
      raise (ValueError (dq +:+ "property_name" +:+ dq +:+ " is not a valid string."))
  | _ =>
      raise (ValueError (dq +:+ "property_name" +:+ dq +:+ " is not a valid string."))
  end.

(** The calls with the flag left out: it defaults to [True]. *)
Definition validate_object_default (the_object : PyVal) : M (list Violation) :=
  validate_object the_object true.

Definition validate_value_default (property_name ook_object : PyVal)
  : M (list Violation) :=
  validate_value property_name ook_object true.

(** ** Specification functions *)

(** The violations of a record with storage [items] under [rules], rule by
    rule in the order of the schema. *)
Definition object_violations
    (h : list Cell) (items : gmap string PyVal)
    (rules : list (string * PropertySchema)) : list Violation :=
  concat (map (fun '(name, rule) =>
                 meta_validate_value h name rule (get_default items name VNone))
              rules).

(** The validator calls a scan of [rules] makes, in order. *)
Definition object_calls
    (items : gmap string PyVal) (rules : list (string * PropertySchema))
  : list Call :=
  map (fun '(name, rule) => (name, rule, get_default items name VNone)) rules.

(** How a validation call ends once the violations are collected. *)
Definition finish (raise_flag : bool) (value_errors : list Violation)
  : Outcome (list Violation) :=
  if truthy value_errors && raise_flag then Raise (ValidationException value_errors)
  else Return value_errors.

(** A record bound to a schema: an instance of [ObjectType] whose type
    binds a schema object; the view gives its storage and its rules. *)
Definition bound_record (h : list Cell) (v : PyVal)
  : option (gmap string PyVal * list (string * PropertySchema)) :=
  if isinstance_in h v T_ObjectType then
    match items_of h v, get_schema_in h v with
    | Some items, Return schema =>
        match schema_rules h schema with
        | Some rules => Some (items, rules)
        | None => None
        end
    | _, _ => None
    end
  else None.

(** A computation that only reads the heap: it leaves the heap as it was,
    and its outcome depends on nothing but the heap. *)
Definition read_only {A} (m : M A) : Prop :=
  (forall st, heap (snd (m st)) = heap st) /\
  (forall st1 st2, heap st1 = heap st2 -> fst (m st1) = fst (m st2)).

(** ** The fuel of the class walks is enough *)

Lemma rank_bases h t b :
  heap_wf h -> In b (bases_of h t) -> rank h b < rank h t.
Proof.
  intros Hwf Hin. destruct t as [| | | | c]; simpl in Hin.
  - contradiction.
  - destruct Hin as [<- | []]. simpl. lia.
  - destruct Hin as [<- | []]. simpl. lia.
  - destruct Hin as [<- | []]. simpl. lia.
  - destruct (h !! c) as [[| | name bases attrs |] |] eqn:Hc; try contradiction.
    unfold rank at 2. rewrite Hc.
    destruct b as [| | | | b']; simpl; try lia.
    pose proof (Hwf _ _ _ _ Hc _ Hin) as Hlt.
    destruct (h !! b') as [[| | | ] |]; lia.
Qed.

Lemma rank_bound h t : rank h t <= 3 + length h.
Proof.
  destruct t as [| | | | c]; simpl; try lia.
  destruct (h !! c) as [[| | name bases attrs |] |] eqn:Hc; try lia.
  apply lookup_lt_Some in Hc. lia.
Qed.

Lemma existsb_ext_in {A} (f g : A -> bool) (l : list A) :
  (forall x, In x l -> f x = g x) -> existsb f l = existsb g l.
Proof.
  induction l as [| x l IH]; intros H; simpl; [reflexivity |].
  rewrite (H x) by (left; reflexivity).
  rewrite IH by (intros y Hy; apply H; right; exact Hy). reflexivity.
Qed.

(** Past the rank of the class, more fuel changes nothing. *)
Lemma issubclass_fuel_stable h target :
  heap_wf h ->
  forall f g t,
    rank h t <= f -> rank h t <= g ->
    issubclass_fuel f h t target = issubclass_fuel g h t target.
Proof.
  intros Hwf. induction f as [| f IH]; intros g t Hf Hg.
  - destruct g as [| g]; [reflexivity |]. simpl. f_equal.
    destruct (bases_of h t) as [| b bs] eqn:Hb; [reflexivity |].
    pose proof (rank_bases h t b Hwf) as Hlt. rewrite Hb in Hlt.
    specialize (Hlt (or_introl eq_refl)). lia.
  - destruct g as [| g].
    + simpl. f_equal.
      destruct (bases_of h t) as [| b bs] eqn:Hb; [reflexivity |].
      pose proof (rank_bases h t b Hwf) as Hlt. rewrite Hb in Hlt.
      specialize (Hlt (or_introl eq_refl)). lia.
    + simpl. f_equal. apply existsb_ext_in. intros b Hin.
      pose proof (rank_bases h t b Hwf Hin) as Hlt.
      apply IH; lia.
Qed.

(** On a well-formed heap [issubclass] is the subclass test of any larger
    fuel: it never answers no for want of fuel. *)
Lemma issubclass_fuel_enough h t target f :
  heap_wf h -> 3 + length h <= f ->
  issubclass_fuel f h t target = issubclass h t target.
Proof.
  intros Hwf Hf. unfold issubclass.
  pose proof (rank_bound h t) as Hr.
  apply issubclass_fuel_stable; [exact Hwf | lia | lia].
Qed.

Lemma omap_ext_in {A B} (f g : A -> option B) (l : list A) :
  (forall x, In x l -> f x = g x) -> omap f l = omap g l.
Proof.
  induction l as [| x l IH]; intros H; [reflexivity |].
  cbn [omap list_omap]. rewrite (H x) by (left; reflexivity).
  rewrite IH by (intros y Hy; apply H; right; exact Hy). reflexivity.
Qed.

Lemma class_attr_fuel_stable h attr :
  heap_wf h ->
  forall f g t,
    (forall c, t = T_user c -> c < f /\ c < g) ->
    class_attr_fuel f h t attr = class_attr_fuel g h t attr.
Proof.
  intros Hwf. induction f as [| f IH]; intros g t Ht.
  - destruct t as [| | | | c]; try (destruct g; reflexivity).
    destruct (Ht c eq_refl); lia.
  - destruct t as [| | | | c]; try (destruct g; reflexivity).
    destruct (Ht c eq_refl) as [Hcf Hcg].
    destruct g as [| g]; [lia |]. cbn [class_attr_fuel].
    destruct (h !! c) as [[| | name bases attrs |] |] eqn:Hc; try reflexivity.
    destruct (attrs !! attr); [reflexivity |]. f_equal.
    apply omap_ext_in. intros b Hin. apply IH.
    intros b' ->. pose proof (Hwf _ _ _ _ Hc _ Hin). lia.
Qed.

(** On a well-formed heap [class_attr] is the lookup of any larger fuel. *)
Lemma class_attr_fuel_enough h t attr f :
  heap_wf h -> S (length h) <= f ->
  class_attr_fuel f h t attr = class_attr h t attr.
Proof.
  intros Hwf Hf. unfold class_attr.
  destruct t as [| | | | c];
    try (destruct f; [lia | reflexivity]).
  destruct (decide (c < length h)) as [Hc | Hc].
  - apply class_attr_fuel_stable; [exact Hwf |]. intros c' Heq.
    inversion Heq; subst. lia.
  - destruct f as [| f]; [lia |]. cbn [class_attr_fuel].
    rewrite (lookup_ge_None_2 h c) by lia. reflexivity.
Qed.

(** ** Computations that only read the heap *)

Lemma read_only_ret {A} (a : A) : read_only (ret a).
Proof. split; intros; reflexivity. Qed.

Lemma read_only_raise {A} (e : Exn) : read_only (@raise A e).
Proof. split; intros; reflexivity. Qed.

Lemma read_only_gets {A} (f : list Cell -> A) : read_only (gets f).
Proof.
  split; intros; unfold gets; simpl; [reflexivity | congruence].
Qed.

Lemma read_only_bind {A B} (m : M A) (k : A -> M B) :
  read_only m -> (forall a, read_only (k a)) -> read_only (bind m k).
Proof.
  intros [Hm1 Hm2] Hk. split.
  - intros st. unfold bind. specialize (Hm1 st).
    destruct (m st) as [[a | e] st'] eqn:E; simpl in *.
    + rewrite (proj1 (Hk a) st'). exact Hm1.
    + exact Hm1.
  - intros st1 st2 Hh. unfold bind.
    pose proof (Hm2 st1 st2 Hh) as Ho.
    pose proof (Hm1 st1) as H1. pose proof (Hm1 st2) as H2.
    destruct (m st1) as [o1 s1], (m st2) as [o2 s2]; simpl in *. subst o2.
    destruct o1 as [a | e]; [| reflexivity].
    apply (proj2 (Hk a)). congruence.
Qed.

Lemma read_only_if {A} (b : bool) (m1 m2 : M A) :
  read_only m1 -> read_only m2 -> read_only (if b then m1 else m2).
Proof. destruct b; auto. Qed.

Lemma read_only_isinstance v target : read_only (isinstance v target).
Proof. apply read_only_gets. Qed.

Lemma read_only_get_schema v : read_only (get_schema v).
Proof. split; intros; unfold get_schema; simpl; [reflexivity | congruence]. Qed.

Lemma read_only_iteritems schema : read_only (iteritems schema).
Proof.
  split.
  - intros st. unfold iteritems. destruct (schema_rules _ _); reflexivity.
  - intros st1 st2 Hh. unfold iteritems. rewrite Hh.
    destruct (schema_rules _ _); reflexivity.
Qed.

Lemma read_only_schema_get schema name : read_only (schema_get schema name).
Proof.
  split.
  - intros st. unfold schema_get. destruct (schema_rules _ _); reflexivity.
  - intros st1 st2 Hh. unfold schema_get. rewrite Hh.
    destruct (schema_rules _ _); reflexivity.
Qed.

Lemma read_only_dict_get v name default : read_only (dict_get v name default).
Proof.
  split.
  - intros st. unfold dict_get. destruct (items_of _ _); reflexivity.
  - intros st1 st2 Hh. unfold dict_get. rewrite Hh.
    destruct (items_of _ _); reflexivity.
Qed.

Lemma read_only_meta_type_validate_value name rule value :
  read_only (meta_type_validate_value name rule value).
Proof.
  split; intros; unfold meta_type_validate_value; simpl; [reflexivity | congruence].
Qed.

Lemma read_only_for_in {A B} (items : list A) (body : A -> B -> M B) :
  (forall x acc, read_only (body x acc)) ->
  forall acc, read_only (for_in items body acc).
Proof.
  intros Hbody. induction items as [| x rest IH]; intros acc; simpl.
  - apply read_only_ret.
  - apply read_only_bind; [apply Hbody | exact IH].
Qed.

Create HintDb read_only.
Hint Resolve read_only_ret read_only_raise read_only_gets read_only_bind
  read_only_if read_only_isinstance read_only_get_schema read_only_iteritems
  read_only_schema_get read_only_dict_get read_only_meta_type_validate_value
  : read_only.

Lemma read_only_validate_object the_object flag :
  read_only (validate_object the_object flag).
Proof.
  unfold validate_object.
  apply read_only_bind; [auto with read_only |]. intros is_ook.
  apply read_only_if; [auto with read_only |].
  apply read_only_bind; [auto with read_only |]. intros schema.
  apply read_only_bind; [auto with read_only |]. intros items.
  apply read_only_bind.
  - apply read_only_for_in. intros [name rule] acc.
    auto 6 with read_only.
  - intros errs. apply read_only_if; auto with read_only.
Qed.

Lemma read_only_validate_value property_name ook_object flag :
  read_only (validate_value property_name ook_object flag).
Proof.
  unfold validate_value.
  destruct property_name; try apply read_only_raise.
  repeat (apply read_only_if; [apply read_only_raise |]).
  apply read_only_bind; [auto with read_only |]. intros is_ook.
  apply read_only_if; [auto with read_only |].
  apply read_only_bind; [auto with read_only |]. intros schema.
  apply read_only_bind; [auto with read_only |]. intros [rule |].
  - apply read_only_bind; [auto with read_only |]. intros value.
    apply read_only_bind; [auto with read_only |]. intros errs.
    cbv zeta. apply read_only_if; auto with read_only.
  - apply read_only_raise.
Qed.

(** ** What a validation call computes on a bound record *)

Lemma bound_record_inv h v items rules :
  bound_record h v = Some (items, rules) ->
  isinstance_in h v T_ObjectType = true /\
  items_of h v = Some items /\
  exists schema, get_schema_in h v = Return schema /\
                 schema_rules h schema = Some rules.
Proof.
  unfold bound_record. intros H.
  destruct (isinstance_in h v T_ObjectType); [| discriminate].
  destruct (items_of h v) as [items' |]; [| discriminate].
  destruct (get_schema_in h v) as [schema | e]; [| discriminate].
  destruct (schema_rules h schema) as [rules' |] eqn:Hr; [| discriminate].
  inversion H; subst. eauto.
Qed.

Lemma bound_record_not_None h v items rules :
  bound_record h v = Some (items, rules) -> is_None v = false.
Proof.
  intros H. apply bound_record_inv in H as (Hi & _).
  destruct v; try reflexivity. discriminate Hi.
Qed.

(** The scan of lines 138-142, from any value of the local list. *)
Lemma scan_run the_object items rules :
  forall acc st,
    items_of (heap st) the_object = Some items ->
    for_in rules
      (fun '(property_name, property_schema) value_errors =>
         value <- dict_get the_object property_name VNone ;;
         errors <- meta_type_validate_value property_name property_schema value ;;
         ret (value_errors ++ errors))
      acc st
    = (Return (acc ++ object_violations (heap st) items rules),
       mkState (heap st) (calls st ++ object_calls items rules)).
Proof.
  induction rules as [| [name rule] rest IH]; intros acc st Hitems.
  - simpl. unfold ret, object_violations, object_calls. simpl.
    rewrite !app_nil_r. destruct st; reflexivity.
  - cbn [for_in]. unfold bind at 1. unfold bind at 1. unfold dict_get at 1.
    rewrite Hitems. unfold bind at 1, meta_type_validate_value at 1, ret at 1.
    rewrite IH by exact Hitems. cbn [heap calls].
    unfold object_violations, object_calls. cbn [map concat].
    rewrite <- !app_assoc. reflexivity.
Qed.

Lemma validate_object_run st the_object flag items rules :
  bound_record (heap st) the_object = Some (items, rules) ->
  validate_object the_object flag st
  = (finish flag (object_violations (heap st) items rules),
     mkState (heap st) (calls st ++ object_calls items rules)).
Proof.
  intros Hb. apply bound_record_inv in Hb as (Hi & Hitems & schema & Hs & Hr).
  unfold validate_object, bind at 1, isinstance, gets. rewrite Hi. cbn [negb].
  unfold bind at 1, get_schema. rewrite Hs.
  unfold bind at 1, iteritems. rewrite Hr.
  unfold bind at 1. rewrite (scan_run _ items) by exact Hitems.
  rewrite app_nil_l. unfold finish.
  destruct (truthy _ && flag); reflexivity.
Qed.

Lemma validate_value_run st name ook_object flag items rules :
  name <> "" ->
  bound_record (heap st) ook_object = Some (items, rules) ->
  validate_value (VStr name) ook_object flag st
  = match rule_of rules name with
    | Some rule =>
        (finish flag (meta_validate_value (heap st) name rule
                        (get_default items name VNone)),
         mkState (heap st)
                 (calls st ++ [(name, rule, get_default items name VNone)]))
    | None =>
        (Raise (ValueError (dq +:+ "property_name" +:+ dq
                            +:+ " is not a recognized property.")), st)
    end.
Proof.
  intros Hname Hb. pose proof (bound_record_not_None _ _ _ _ Hb) as Hnone.
  apply bound_record_inv in Hb as (Hi & Hitems & schema & Hs & Hr).
  unfold validate_value.
  destruct name as [| c name']; [congruence |]. cbn [String.length Nat.ltb Nat.leb].
  rewrite Hnone.
  unfold bind at 1, isinstance, gets. rewrite Hi. cbn [negb].
  unfold bind at 1, get_schema. rewrite Hs.
  unfold bind at 1, schema_get. rewrite Hr.
  destruct (rule_of rules _) as [rule |]; [| reflexivity].
  unfold bind at 1, dict_get. rewrite Hitems.
  unfold bind at 1, meta_type_validate_value. cbv zeta. rewrite app_nil_l.
  unfold finish. destruct (truthy _ && flag); reflexivity.
Qed.

Lemma truthy_nonempty {A} (l : list A) : l <> [] -> truthy l = true.
Proof. destruct l; [congruence | reflexivity]. Qed.

Lemma nonempty_length {A} (l : list A) : l <> [] -> 1 <= length l.
Proof. destruct l; [congruence | simpl; lia]. Qed.

Lemma finish_true_nonempty (errs : list Violation) :
  errs <> [] -> finish true errs = Raise (ValidationException errs).
Proof. intros Hne. unfold finish. rewrite (truthy_nonempty _ Hne). reflexivity. Qed.

Lemma finish_false (errs : list Violation) : finish false errs = Return errs.
Proof. unfold finish. rewrite andb_false_r. reflexivity. Qed.

Lemma finish_empty flag (errs : list Violation) :
  errs = [] -> finish flag errs = Return [].
Proof. intros ->. reflexivity. Qed.

(** ** Properties of [validate_object] and [validate_value] *)

(** C1: on a schema-bound record, [validate_object] visits every
    (name, rule) pair of the record's schema in the order of the schema,
    fetches the record's value for the name with None as the default, calls
    the per-value validator on (name, rule, value) -- the log of calls grows
    by exactly these triples, in that order -- and the violations it ends
    with are the concatenation of the validator's results in schema order:
    returned when the flag is false, and the same list in either case. *)
Theorem validate_object_scans_in_schema_order st the_object items rules :
  bound_record (heap st) the_object = Some (items, rules) ->
  validate_object the_object false st
  = (Return (concat (map (fun '(name, rule) =>
                            meta_validate_value (heap st) name rule
                              (get_default items name VNone)) rules)),
     mkState (heap st)
             (calls st ++ map (fun '(name, rule) =>
                                 (name, rule, get_default items name VNone)) rules))
  /\ forall flag,
      validate_object the_object flag st
      = (finish flag (object_violations (heap st) items rules),
         mkState (heap st) (calls st ++ object_calls items rules)).
Proof.
  intros Hb. split.
  - rewrite (validate_object_run _ _ _ _ _ Hb), finish_false. reflexivity.
  - intros flag. apply validate_object_run, Hb.
Qed.

(** C2: for both validation calls on a schema-bound record, when the
    collected list is non-empty and the flag is true (also when it is left
    out) the call raises [ValidationException] carrying the whole list, of
    length at least 1; when the flag is false the list is returned; when the
    list is empty the empty list is returned whatever the flag. *)
Theorem validation_raise_contract st the_object items rules :
  bound_record (heap st) the_object = Some (items, rules) ->
  (let errs := object_violations (heap st) items rules in
   (errs <> [] ->
    fst (validate_object the_object true st) = Raise (ValidationException errs) /\
    fst (validate_object_default the_object st) = Raise (ValidationException errs) /\
    1 <= length errs) /\
   fst (validate_object the_object false st) = Return errs /\
   (errs = [] -> forall flag, fst (validate_object the_object flag st) = Return []))
  /\
  (forall name rule,
      name <> "" -> rule_of rules name = Some rule ->
      let errs := meta_validate_value (heap st) name rule
                    (get_default items name VNone) in
      (errs <> [] ->
       fst (validate_value (VStr name) the_object true st)
       = Raise (ValidationException errs) /\
       fst (validate_value_default (VStr name) the_object st)
       = Raise (ValidationException errs) /\
       1 <= length errs) /\
      fst (validate_value (VStr name) the_object false st) = Return errs /\
      (errs = [] ->
       forall flag, fst (validate_value (VStr name) the_object flag st) = Return [])).
Proof.
  intros Hb. split.
  - cbv zeta. unfold validate_object_default.
    repeat split; intros; rewrite ?(validate_object_run _ _ _ _ _ Hb); cbn [fst];
      auto using finish_true_nonempty, finish_false, finish_empty, nonempty_length.
  - intros name rule Hname Hrule. cbv zeta. unfold validate_value_default.
    repeat split; intros;
      rewrite ?(validate_value_run _ _ _ _ _ _ Hname Hb), ?Hrule; cbn [fst];
      auto using finish_true_nonempty, finish_false, finish_empty, nonempty_length.
Qed.



(** C7: on a schema-bound record, two calls of [validate_object] in a row
    with the flag false, nothing changed in between, both return, and
    return equal violation lists. *)
Theorem validate_object_idempotent st the_object items rules :
  bound_record (heap st) the_object = Some (items, rules) ->
  exists errs st1 st2,
    validate_object the_object false st = (Return errs, st1) /\
    validate_object the_object false st1 = (Return errs, st2).
Proof.
  intros Hb.
  exists (object_violations (heap st) items rules).
  eexists. eexists. split.
  - rewrite (validate_object_run _ _ _ _ _ Hb), finish_false. reflexivity.
  - rewrite (validate_object_run _ _ _ items rules) by exact Hb.
    rewrite finish_false. reflexivity.
Qed.

(** C8: validation never mutates its inputs.  Whatever the arguments and
    the outcome, [validate_object] and [validate_value] leave the heap --
    the stored values of the record and the schema bound to its type among
    the rest -- exactly as it was; and nothing a call leaves behind is read
    by a later call: the outcome depends on the heap alone. *)
Theorem validation_never_mutates st property_name the_object flag :
  heap (snd (validate_object the_object flag st)) = heap st /\
  heap (snd (validate_value property_name the_object flag st)) = heap st /\
  (forall st',
      heap st' = heap st ->
      fst (validate_object the_object flag st')
      = fst (validate_object the_object flag st) /\
      fst (validate_value property_name the_object flag st')
      = fst (validate_value property_name the_object flag st)).
Proof.
  split; [apply read_only_validate_object |].
  split; [apply read_only_validate_value |].
  intros st' Hh. split.
  - apply read_only_validate_object, Hh.
  - apply read_only_validate_value, Hh.
Qed.

Lemma get_default_None_absent (items1 items2 : gmap string PyVal) name :
  items1 !! name = Some VNone -> items2 !! name = None ->
  (forall n, n <> name -> items1 !! n = items2 !! n) ->
  forall n, get_default items1 n VNone = get_default items2 n VNone.
Proof.
  intros H1 H2 Hother n. unfold get_default.
  destruct (decide (n = name)) as [-> | Hne].
  - rewrite H1, H2. reflexivity.
  - rewrite (Hother n Hne). reflexivity.
Qed.

Lemma object_violations_ext h (items1 items2 : gmap string PyVal) rules :
  (forall n, get_default items1 n VNone = get_default items2 n VNone) ->
  object_violations h items1 rules = object_violations h items2 rules.
Proof.
  intros Hext. unfold object_violations. f_equal.
  apply map_ext. intros [n r]. rewrite Hext. reflexivity.
Qed.

(** C9: a property stored as None cannot be told from a property never set.
    Of two records bound to the same rules whose storages differ only in
    that one holds None under [name] and the other holds nothing there,
    [validate_object] gives the same outcome, and so does [validate_value]
    for every property name. *)
Theorem None_value_same_as_absent st o1 o2 items1 items2 rules name flag :
  bound_record (heap st) (VRef o1) = Some (items1, rules) ->
  bound_record (heap st) (VRef o2) = Some (items2, rules) ->
  items1 !! name = Some VNone ->
  items2 !! name = None ->
  (forall n, n <> name -> items1 !! n = items2 !! n) ->
  fst (validate_object (VRef o1) flag st) = fst (validate_object (VRef o2) flag st) /\
  forall property_name,
    fst (validate_value property_name (VRef o1) flag st)
    = fst (validate_value property_name (VRef o2) flag st).
Proof.
  intros Hb1 Hb2 H1 H2 Hother.
  pose proof (get_default_None_absent _ _ _ H1 H2 Hother) as Hext.
  split.
  - rewrite (validate_object_run _ _ _ _ _ Hb1), (validate_object_run _ _ _ _ _ Hb2).
    cbn [fst]. rewrite (object_violations_ext _ _ _ _ Hext). reflexivity.
  - intros property_name.
    destruct property_name as [| b | z | s | | l]; try reflexivity.
    destruct (decide (s = "")) as [-> | Hs]; [reflexivity |].
    rewrite (validate_value_run _ _ _ _ _ _ Hs Hb1),
            (validate_value_run _ _ _ _ _ _ Hs Hb2).
    destruct (rule_of rules s); [| reflexivity].
    cbn [fst]. rewrite Hext. reflexivity.
Qed.

(** ** What [create_ook_type] computes *)

Lemma lookup_snoc (h : list Cell) (c : Cell) : (h ++ [c]) !! length h = Some c.
Proof. apply list_lookup_middle. reflexivity. Qed.

Lemma insert_snoc (h : list Cell) (c c' : Cell) :
  <[length h := c']> (h ++ [c]) = h ++ [c'].
Proof.
  rewrite insert_app_r_alt by lia. rewrite Nat.sub_diag. reflexivity.
Qed.

Lemma insert_snoc2 (h : list Cell) (c c' d : Cell) :
  <[length h := c']> ((h ++ [c]) ++ [d]) = h ++ [c'; d].
Proof.
  rewrite <- app_assoc. rewrite insert_app_r_alt by lia.
  rewrite Nat.sub_diag. reflexivity.
Qed.

Lemma lookup_snoc2 (h : list Cell) (c d : Cell) :
  (h ++ [c; d]) !! S (length h) = Some d.
Proof.
  rewrite lookup_app_r by lia.
  replace (S (length h) - length h) with 1 by lia. reflexivity.
Qed.

(** Lines 102-109, once the three guards have let the arguments through. *)
Lemma create_ook_type_run st s schema :
  s <> "" ->
  is_None schema = false ->
  isinstance_in (heap st) schema T_dict = true ->
  create_ook_type (VStr s) schema st
  = let n := length (heap st) in
    let h1 := heap st ++ [CType s [T_ObjectType] ∅] in
    if isinstance_in h1 schema T_SchemaType then
      (Return (VRef n),
       mkState (heap st ++ [CType s [T_ObjectType] {["OOK_SCHEMA" := schema]}])
               (calls st))
    else
      match items_of h1 schema with
      | Some items =>
          match SchemaType_init h1 items with
          | inr rules =>
              (Return (VRef n),
               mkState (heap st ++ [CType s [T_ObjectType] {["OOK_SCHEMA" := VRef (S n)]};
                                    CSchemaType rules])
                       (calls st))
          | inl e => (Raise e, mkState h1 (calls st))
          end
      | None => (Raise (TypeError "SchemaType"), mkState h1 (calls st))
      end.
Proof.
  intros Hs Hnone Hdict. unfold create_ook_type.
  destruct s as [| c s']; [congruence |]. cbn [is_None is_empty_str orb].
  rewrite Hnone.
  unfold bind at 1, isinstance at 1, gets. rewrite Hdict. cbn [negb].
  unfold bind at 1, type_new, bind at 1, alloc, ret at 1.
  unfold bind at 1, isinstance, gets. cbn [heap calls]. cbv zeta.
  destruct (isinstance_in _ schema T_SchemaType); cbn [negb].
  - unfold bind at 1, ret at 1. unfold bind, setattr. cbn [heap calls].
    rewrite lookup_snoc. unfold store, ret. cbn [heap calls].
    rewrite insert_snoc, insert_empty. reflexivity.
  - unfold bind at 1, SchemaType_new. cbn [heap calls].
    destruct (items_of _ schema) as [items |]; [| reflexivity].
    destruct (SchemaType_init _ items) as [e | rules]; [reflexivity |].
    unfold bind at 1, alloc, ret at 1. cbn [heap calls].
    unfold bind, setattr. cbn [heap calls].
    rewrite lookup_app_l by (rewrite length_app; simpl; lia).
    rewrite lookup_snoc. unfold store, ret. cbn [heap calls].
    rewrite insert_snoc2, insert_empty, length_app. cbn [length].
    rewrite Nat.add_1_r. reflexivity.
Qed.

(** A name that is not a string never gets a type made. *)
Lemma create_ook_type_bad_name st name schema :
  (forall s, name <> VStr s) ->
  exists e st', create_ook_type name schema st = (Raise e, st').
Proof.
  intros Hname. unfold create_ook_type.
  destruct name as [| b | z | s | | l]; try (eexists; eexists; reflexivity);
    try (exfalso; apply (Hname s); reflexivity);
    cbn [is_None is_empty_str orb];
    (destruct (is_None schema); [eexists; eexists; reflexivity |]);
    unfold bind at 1, isinstance at 1, gets;
    (destruct (isinstance_in (heap st) schema T_dict); cbn [negb];
     eexists; eexists; reflexivity).
Qed.

Lemma isinstance_SchemaType_cell h l rules :
  h !! l = Some (CSchemaType rules) ->
  isinstance_in h (VRef l) T_dict = true /\
  isinstance_in h (VRef l) T_SchemaType = true.
Proof.
  intros Hl. unfold isinstance_in, type_of. rewrite Hl. split; reflexivity.
Qed.

Lemma isinstance_dict_cell h l items :
  h !! l = Some (CDict items) ->
  isinstance_in h (VRef l) T_dict = true /\
  isinstance_in h (VRef l) T_SchemaType = false.
Proof.
  intros Hl. unfold isinstance_in, type_of. rewrite Hl. split; reflexivity.
Qed.

(** The instances of a type that binds a schema in its own namespace. *)
Lemma instance_of_bound_type h c s bases attrs schema o items :
  h !! c = Some (CType s bases attrs) ->
  attrs !! "OOK_SCHEMA" = Some schema ->
  In T_ObjectType bases ->
  h !! o = Some (CObject (T_user c) items) ->
  isinstance_in h (VRef o) T_ObjectType = true /\
  get_schema_in h (VRef o) = Return schema.
Proof.
  intros Hc Hattr Hbase Ho. split.
  - unfold isinstance_in, type_of. rewrite Ho.
    unfold issubclass. cbn [Nat.add issubclass_fuel TypeRef_eqb orb bases_of].
    rewrite Hc. apply existsb_exists. exists T_ObjectType. split; [exact Hbase |].
    destruct (length h); reflexivity.
  - unfold get_schema_in. rewrite Ho. unfold class_attr.
    cbn [class_attr_fuel]. rewrite Hc, Hattr. reflexivity.
Qed.

(** The guards of lines 95-100. *)
Lemma create_ook_type_guards st name schema :
  name = VNone \/ name = VStr "" \/ schema = VNone \/
  isinstance_in (heap st) schema T_dict = false ->
  exists msg, create_ook_type name schema st = (Raise (ValueError msg), st).
Proof.
  intros H. unfold create_ook_type.
  destruct (is_None name || is_empty_str name) eqn:Hn; [eexists; reflexivity |].
  destruct (is_None schema) eqn:Hs; [eexists; reflexivity |].
  destruct H as [-> | [-> | [-> | Hd]]]; try discriminate.
  unfold bind at 1, isinstance at 1, gets. rewrite Hd. eexists; reflexivity.
Qed.

Lemma create_ook_type_SchemaType_run st s l rules :
  s <> "" ->
  heap st !! l = Some (CSchemaType rules) ->
  create_ook_type (VStr s) (VRef l) st
  = (Return (VRef (length (heap st))),
     mkState (heap st ++ [CType s [T_ObjectType] {["OOK_SCHEMA" := VRef l]}])
             (calls st)).
Proof.
  intros Hs Hl.
  rewrite create_ook_type_run;
    [| exact Hs | reflexivity | apply (isinstance_SchemaType_cell _ _ _ Hl)].
  cbv zeta.
  assert (Hl1 : (heap st ++ [CType s [T_ObjectType] ∅]) !! l = Some (CSchemaType rules))
    by (apply lookup_app_l_Some; exact Hl).
  rewrite (proj2 (isinstance_SchemaType_cell _ _ _ Hl1)). reflexivity.
Qed.

Lemma create_ook_type_dict_run st s l items :
  s <> "" ->
  heap st !! l = Some (CDict items) ->
  create_ook_type (VStr s) (VRef l) st
  = let n := length (heap st) in
    let h1 := heap st ++ [CType s [T_ObjectType] ∅] in
    match SchemaType_init h1 items with
    | inr rules =>
        (Return (VRef n),
         mkState (heap st ++ [CType s [T_ObjectType] {["OOK_SCHEMA" := VRef (S n)]};
                              CSchemaType rules])
                 (calls st))
    | inl e => (Raise e, mkState h1 (calls st))
    end.
Proof.
  intros Hs Hl.
  rewrite create_ook_type_run;
    [| exact Hs | reflexivity | apply (isinstance_dict_cell _ _ _ Hl)].
  cbv zeta.
  assert (Hl1 : (heap st ++ [CType s [T_ObjectType] ∅]) !! l = Some (CDict items))
    by (apply lookup_app_l_Some; exact Hl).
  rewrite (proj2 (isinstance_dict_cell _ _ _ Hl1)).
  unfold items_of. rewrite Hl1. reflexivity.
Qed.

(** ** [create_ook_type] keeps the heap well formed *)

Definition keeps_wf {A} (m : M A) : Prop :=
  forall st, heap_wf (heap st) -> heap_wf (heap (snd (m st))).

Lemma keeps_wf_ret {A} (a : A) : keeps_wf (ret a).
Proof. intros st H. exact H. Qed.

Lemma keeps_wf_raise {A} (e : Exn) : keeps_wf (@raise A e).
Proof. intros st H. exact H. Qed.

Lemma keeps_wf_gets {A} (f : list Cell -> A) : keeps_wf (gets f).
Proof. intros st H. exact H. Qed.

Lemma keeps_wf_bind {A B} (m : M A) (k : A -> M B) :
  keeps_wf m -> (forall a, keeps_wf (k a)) -> keeps_wf (bind m k).
Proof.
  intros Hm Hk st Hwf. unfold bind. specialize (Hm st Hwf).
  destruct (m st) as [[a | e] st1]; simpl in *.
  - apply Hk, Hm.
  - exact Hm.
Qed.

Lemma keeps_wf_if {A} (b : bool) (m1 m2 : M A) :
  keeps_wf m1 -> keeps_wf m2 -> keeps_wf (if b then m1 else m2).
Proof. destruct b; auto. Qed.

Lemma heap_wf_snoc h cell :
  heap_wf h ->
  (forall name bases attrs,
      cell = CType name bases attrs -> forall b, In (T_user b) bases -> b < length h) ->
  heap_wf (h ++ [cell]).
Proof.
  intros Hwf Hcell c name bases attrs Hc b Hin.
  destruct (decide (c < length h)) as [Hlt | Hge].
  - rewrite lookup_app_l in Hc by exact Hlt. eapply Hwf; eassumption.
  - pose proof (lookup_lt_Some _ _ _ Hc) as Hlen.
    rewrite length_app in Hlen. simpl in Hlen.
    assert (c = length h) as -> by lia.
    rewrite lookup_snoc in Hc. inversion Hc; subst.
    eapply Hcell; [reflexivity | exact Hin].
Qed.

Lemma keeps_wf_alloc_leaf cell :
  (forall name bases attrs,
      cell = CType name bases attrs -> forall b, ~ In (T_user b) bases) ->
  keeps_wf (alloc cell).
Proof.
  intros Hcell st Hwf. unfold alloc. simpl. apply heap_wf_snoc; [exact Hwf |].
  intros name bases attrs Heq b Hin. exfalso. eapply Hcell; eassumption.
Qed.

Lemma keeps_wf_type_new name attrs : keeps_wf (type_new name [T_ObjectType] attrs).
Proof.
  destruct name; try apply keeps_wf_raise. unfold type_new.
  apply keeps_wf_bind; [| intros; apply keeps_wf_ret].
  apply keeps_wf_alloc_leaf. intros n bs ats Heq b Hin.
  inversion Heq; subst. destruct Hin as [Hin | []]. discriminate Hin.
Qed.

Lemma keeps_wf_setattr cls attr v : keeps_wf (setattr cls attr v).
Proof.
  intros st Hwf. unfold setattr.
  destruct cls as [| | | | | c]; try exact Hwf.
  destruct (heap st !! c) as [[| | n bs ats |] |] eqn:Hc; try exact Hwf.
  unfold store. simpl. intros c' name bases attrs Hc' b Hin.
  destruct (decide (c = c')) as [<- | Hne].
  - rewrite list_lookup_insert_eq in Hc' by (eapply lookup_lt_Some; exact Hc).
    inversion Hc'; subst. eapply Hwf; eassumption.
  - rewrite list_lookup_insert_ne in Hc' by exact Hne. eapply Hwf; eassumption.
Qed.

Lemma keeps_wf_SchemaType_new schema : keeps_wf (SchemaType_new schema).
Proof.
  intros st Hwf. unfold SchemaType_new.
  destruct (items_of (heap st) schema) as [items |]; [| exact Hwf].
  destruct (SchemaType_init (heap st) items) as [e | rules]; [exact Hwf |].
  apply (keeps_wf_bind (alloc (CSchemaType rules))); [| intros; apply keeps_wf_ret | exact Hwf].
  apply keeps_wf_alloc_leaf. intros n bs ats Heq. discriminate Heq.
Qed.

(** Whatever its outcome, [create_ook_type] leaves a well-formed heap well
    formed: the class it makes has [ObjectType] for its only base. *)
Lemma create_ook_type_keeps_heap_wf name schema st :
  heap_wf (heap st) ->
  heap_wf (heap (snd (create_ook_type name schema st))).
Proof.
  revert st. change (keeps_wf (create_ook_type name schema)).
  unfold create_ook_type.
  repeat (apply keeps_wf_if; [apply keeps_wf_raise |]).
  apply keeps_wf_bind; [apply keeps_wf_gets |]. intros is_dict.
  apply keeps_wf_if; [apply keeps_wf_raise |].
  apply keeps_wf_bind; [apply keeps_wf_type_new |]. intros ook_type.
  apply keeps_wf_bind; [apply keeps_wf_gets |]. intros is_schema.
  apply keeps_wf_bind.
  - apply keeps_wf_if; [apply keeps_wf_SchemaType_new | apply keeps_wf_ret].
  - intros schema'. apply keeps_wf_bind; [apply keeps_wf_setattr |].
    intros _. apply keeps_wf_ret.
Qed.

(** ** Properties of [create_ook_type] *)

(** C5: the name guard of line 95 tests identity with the literal [''], not
    equality.  The empty [unicode] string is an empty name that is not that
    object: given with a schema that passes the schema guards, it passes the
    name guard too, and the call ends in [type] with [TypeError]; no
    [ValueError] is raised for this empty name. *)
Theorem create_ook_type_empty_unicode_name st schema :
  schema <> VNone ->
  isinstance_in (heap st) schema T_dict = true ->
  (exists msg,
      create_ook_type VEmptyUnicode schema st = (Raise (TypeError msg), st)) /\
  (forall msg st',
      create_ook_type VEmptyUnicode schema st <> (Raise (ValueError msg), st')).
Proof.
  intros Hschema Hdict.
  assert (Hrun : create_ook_type VEmptyUnicode schema st
                 = (Raise (TypeError "type() argument 1 must be string"), st)).
  { assert (Hnone : is_None schema = false)
      by (destruct schema; [congruence | reflexivity ..]).
    unfold create_ook_type. cbn [is_None is_empty_str orb]. rewrite Hnone.
    unfold bind at 1, isinstance at 1, gets. rewrite Hdict. reflexivity. }
  split.
  - eexists. exact Hrun.
  - intros msg st'. rewrite Hrun. discriminate.
Qed.

(** C6: when [create_ook_type] returns, what it returns is a type minted by
    this call (a location the heap did not have), with the given name and
    the single base [ObjectType], whose [OOK_SCHEMA] is the schema argument
    itself when that is a [SchemaType], and otherwise a new [SchemaType]
    built from the entries of the mapping; and every instance of the
    returned type is an [ObjectType] whose [get_schema] gives that schema. *)
Theorem create_ook_type_binds_schema st name schema t st' :
  create_ook_type name schema st = (Return t, st') ->
  let n := length (heap st) in
  exists s schema',
    name = VStr s /\ s <> "" /\
    t = VRef n /\ heap st !! n = None /\
    heap st' !! n = Some (CType s [T_ObjectType] {["OOK_SCHEMA" := schema']}) /\
    (let h1 := heap st ++ [CType s [T_ObjectType] ∅] in
     (isinstance_in h1 schema T_SchemaType = true /\
      schema' = schema /\
      heap st' = heap st ++ [CType s [T_ObjectType] {["OOK_SCHEMA" := schema]}])
     \/
     (isinstance_in h1 schema T_SchemaType = false /\
      exists items rules,
        items_of h1 schema = Some items /\
        SchemaType_init h1 items = inr rules /\
        schema' = VRef (S n) /\
        heap st !! S n = None /\
        heap st' = heap st ++ [CType s [T_ObjectType] {["OOK_SCHEMA" := VRef (S n)]};
                               CSchemaType rules])) /\
    (forall h o items,
        h !! n = heap st' !! n ->
        h !! o = Some (CObject (T_user n) items) ->
        isinstance_in h (VRef o) T_ObjectType = true /\
        get_schema_in h (VRef o) = Return schema').
Proof.
  intros H n.
  assert (Hname : exists s, name = VStr s).
  { destruct name as [| b | z | s | | l]; eauto;
      edestruct (create_ook_type_bad_name st) as (e & st0 & He);
      try (rewrite He in H; discriminate H); intros s; discriminate. }
  destruct Hname as [s ->].
  assert (Hs : s <> "").
  { intros ->. destruct (create_ook_type_guards st (VStr "") schema) as [m Hm];
      [auto |]. rewrite Hm in H. discriminate H. }
  assert (Hnone : is_None schema = false).
  { destruct schema; try reflexivity.
    destruct (create_ook_type_guards st (VStr s) VNone) as [m Hm]; [auto |].
    rewrite Hm in H. discriminate H. }
  assert (Hdict : isinstance_in (heap st) schema T_dict = true).
  { destruct (isinstance_in (heap st) schema T_dict) eqn:Hd; [reflexivity |].
    destruct (create_ook_type_guards st (VStr s) schema) as [m Hm]; [auto |].
    rewrite Hm in H. discriminate H. }
  rewrite (create_ook_type_run _ _ _ Hs Hnone Hdict) in H. cbv zeta in H.
  assert (Hfresh : forall k, heap st !! (k + n) = None).
  { intros k. apply lookup_ge_None. unfold n. lia. }
  assert (Hinst : forall schema' h o items,
             h !! n = Some (CType s [T_ObjectType] {["OOK_SCHEMA" := schema']}) ->
             h !! o = Some (CObject (T_user n) items) ->
             isinstance_in h (VRef o) T_ObjectType = true /\
             get_schema_in h (VRef o) = Return schema').
  { intros schema' h o items Hc Ho.
    eapply instance_of_bound_type; [exact Hc | | | exact Ho].
    - apply lookup_singleton_eq.
    - left; reflexivity. }
  destruct (isinstance_in _ schema T_SchemaType) eqn:Hsch.
  - inversion H; subst t st'; clear H. cbn [heap].
    exists s, schema. repeat split; auto.
    + apply (Hfresh 0).
    + apply lookup_snoc.
    + eapply Hinst; [| eassumption]. rewrite H. apply lookup_snoc.
    + eapply Hinst; [| eassumption]. rewrite H. apply lookup_snoc.
  - destruct (items_of _ schema) as [items |] eqn:Hitems; [| discriminate H].
    destruct (SchemaType_init _ items) as [e | rules] eqn:Hinit; [discriminate H |].
    inversion H; subst t st'; clear H. cbn [heap].
    assert (Hn : (heap st ++ [CType s [T_ObjectType] {["OOK_SCHEMA" := VRef (S n)]};
                              CSchemaType rules]) !! n
                 = Some (CType s [T_ObjectType] {["OOK_SCHEMA" := VRef (S n)]}))
      by (apply list_lookup_middle; reflexivity).
    exists s, (VRef (S n)). repeat split; auto.
    + apply (Hfresh 0).
    + right. split; [exact Hsch |]. exists items, rules.
      repeat split; auto. apply (Hfresh 1).
    + eapply Hinst; [| eassumption]. rewrite H. exact Hn.
    + eapply Hinst; [| eassumption]. rewrite H. exact Hn.
Qed.

(** C10: given a [SchemaType], [create_ook_type] binds that very object to
    the type it makes and copies nothing: two calls with the same
    [SchemaType] return two distinct types whose [OOK_SCHEMA] is the one
    location of the argument, the schema cell is as it was, and the heap
    has grown by the two class cells only.  Given a plain [dict], the type
    is bound to a [SchemaType] at a location the heap did not have. *)
Theorem create_ook_type_shares_SchemaType st name1 name2 l rules :
  name1 <> "" -> name2 <> "" ->
  heap st !! l = Some (CSchemaType rules) ->
  (exists t1 t2 st1 st2,
      create_ook_type (VStr name1) (VRef l) st = (Return (VRef t1), st1) /\
      create_ook_type (VStr name2) (VRef l) st1 = (Return (VRef t2), st2) /\
      t1 <> t2 /\
      heap st2 !! t1 = Some (CType name1 [T_ObjectType] {["OOK_SCHEMA" := VRef l]}) /\
      heap st2 !! t2 = Some (CType name2 [T_ObjectType] {["OOK_SCHEMA" := VRef l]}) /\
      heap st2 !! l = Some (CSchemaType rules) /\
      length (heap st2) = length (heap st) + 2)
  /\
  (forall d items new_rules,
      heap st !! d = Some (CDict items) ->
      SchemaType_init (heap st ++ [CType name1 [T_ObjectType] ∅]) items
      = inr new_rules ->
      exists t st',
        create_ook_type (VStr name1) (VRef d) st = (Return (VRef t), st') /\
        heap st' !! t
        = Some (CType name1 [T_ObjectType] {["OOK_SCHEMA" := VRef (S t)]}) /\
        heap st' !! S t = Some (CSchemaType new_rules) /\
        heap st !! S t = None /\
        S t <> d /\
        heap st' !! d = Some (CDict items)).
Proof.
  intros H1 H2 Hl. split.
  - eexists. eexists. eexists. eexists.
    split; [apply (create_ook_type_SchemaType_run _ _ _ _ H1 Hl) |].
    split.
    { apply (create_ook_type_SchemaType_run _ _ _ rules H2). cbn [heap].
      apply lookup_app_l_Some. exact Hl. }
    cbn [heap]. rewrite !length_app. cbn [length].
    repeat split.
    + lia.
    + apply lookup_app_l_Some, lookup_snoc.
    + replace (length (heap st) + 1) with (length (heap st ++ [CType name1 [T_ObjectType] {["OOK_SCHEMA" := VRef l]}]))
        by (rewrite length_app; reflexivity).
      apply lookup_snoc.
    + apply lookup_app_l_Some, lookup_app_l_Some, Hl.
    + lia.
  - intros d items new_rules Hd Hinit.
    eexists. eexists.
    split.
    { rewrite (create_ook_type_dict_run _ _ _ _ H1 Hd). cbv zeta.
      rewrite Hinit. reflexivity. }
    cbn [heap]. repeat split.
    + apply list_lookup_middle. reflexivity.
    + apply lookup_snoc2.
    + apply lookup_ge_None. lia.
    + apply lookup_lt_Some in Hd. lia.
    + apply lookup_app_l_Some, Hd.
Qed.

(** ** Further properties of [create_ook_type] *)

Lemma name_guard_passes name :
  name <> VNone -> name <> VStr "" -> is_None name || is_empty_str name = false.
Proof.
  intros H1 H2. destruct name as [| b | z | s | | l]; try reflexivity.
  - congruence.
  - destruct s; [congruence | reflexivity].
Qed.

Lemma is_None_false v : v <> VNone -> is_None v = false.
Proof. destruct v; [congruence | reflexivity ..]. Qed.

(** A name that is neither None nor a string passes the guards and stops
    [type]. *)
Lemma create_ook_type_non_str st name schema :
  (forall s, name <> VStr s) -> name <> VNone ->
  schema <> VNone -> isinstance_in (heap st) schema T_dict = true ->
  create_ook_type name schema st
  = (Raise (TypeError "type() argument 1 must be string"), st).
Proof.
  intros Hstr Hname Hschema Hdict. unfold create_ook_type.
  rewrite name_guard_passes by (auto; apply Hstr).
  rewrite (is_None_false _ Hschema).
  unfold bind at 1, isinstance at 1, gets. rewrite Hdict. cbn [negb].
  destruct name as [| b | z | s | | l]; try reflexivity.
  exfalso. apply (Hstr s). reflexivity.
Qed.

(** X1: [create_ook_type] only ever adds to the heap.  Whatever its arguments
    and its outcome, the heap it leaves is the heap it found followed by at
    most two new cells, so every object that existed -- the schema argument
    among them -- is still there unchanged; and it makes no validator call. *)
Theorem create_ook_type_only_allocates st name schema :
  exists new,
    snd (create_ook_type name schema st) = mkState (heap st ++ new) (calls st) /\
    length new <= 2 /\
    (forall l cell,
        heap st !! l = Some cell ->
        heap (snd (create_ook_type name schema st)) !! l = Some cell).
Proof.
  assert (Hsame : forall o : Outcome PyVal,
             create_ook_type name schema st = (o, st) ->
             exists new,
               snd (create_ook_type name schema st) = mkState (heap st ++ new) (calls st) /\
               length new <= 2 /\
               (forall l cell,
                   heap st !! l = Some cell ->
                   heap (snd (create_ook_type name schema st)) !! l = Some cell)).
  { intros o Ho. exists []. rewrite Ho. cbn [snd]. rewrite app_nil_r.
    destruct st; simpl; auto. }
  assert (Hgrow : forall (o : Outcome PyVal) new,
             length new <= 2 ->
             create_ook_type name schema st = (o, mkState (heap st ++ new) (calls st)) ->
             exists new,
               snd (create_ook_type name schema st) = mkState (heap st ++ new) (calls st) /\
               length new <= 2 /\
               (forall l cell,
                   heap st !! l = Some cell ->
                   heap (snd (create_ook_type name schema st)) !! l = Some cell)).
  { intros o new Hlen Ho. exists new. rewrite Ho. cbn [snd heap].
    repeat split; auto. intros l cell Hl. apply lookup_app_l_Some, Hl. }
  destruct (is_None schema) eqn:Hs.
  { destruct schema; try discriminate Hs.
    destruct (create_ook_type_guards st name VNone) as [m Hm]; eauto 6. }
  assert (Hs' : schema <> VNone) by (intros ->; discriminate Hs).
  destruct (isinstance_in (heap st) schema T_dict) eqn:Hd.
  2:{ destruct (create_ook_type_guards st name schema) as [m Hm]; eauto 6. }
  destruct name as [| b | z | s | | l];
    try (eapply Hsame, create_ook_type_non_str; auto; intros s; discriminate).
  - destruct (create_ook_type_guards st VNone schema) as [m Hm]; eauto.
  - destruct s as [| c s].
    { destruct (create_ook_type_guards st (VStr "") schema) as [m Hm]; eauto. }
    pose proof (create_ook_type_run st (String c s) schema
                  ltac:(discriminate) Hs Hd) as Hrun.
    cbv zeta in Hrun.
    destruct (isinstance_in _ schema T_SchemaType).
    + eapply Hgrow; [| exact Hrun]. simpl; lia.
    + destruct (items_of _ schema) as [items |].
      * destruct (SchemaType_init _ items) as [e | rules];
          (eapply Hgrow; [| exact Hrun]); simpl; lia.
      * eapply Hgrow; [| exact Hrun]. simpl; lia.
Qed.

(** X2: the guards of [create_ook_type] answer in the order they are written,
    each with its own message.  A name that is None is reported whatever the
    schema argument is.  A name that is neither None nor the empty [str] --
    the empty [unicode] string is such a name -- passes the name guard: then
    a schema that is None is reported, then a schema that is not a [dict]. *)
Theorem create_ook_type_guard_messages st name schema :
  (name = VNone ->
   create_ook_type name schema st
   = (Raise (ValueError ("The string " +:+ dq +:+ "name" +:+ dq +:+ " argument is required.")),
      st)) /\
  (name <> VNone -> name <> VStr "" -> schema = VNone ->
   create_ook_type name schema st
   = (Raise (ValueError "The schema dictionary is required."), st)) /\
  (name <> VNone -> name <> VStr "" -> schema <> VNone ->
   isinstance_in (heap st) schema T_dict = false ->
   create_ook_type name schema st
   = (Raise (ValueError "The schema must be a dict or SchemaType."), st)).
Proof.
  unfold create_ook_type. repeat split.
  - intros ->. reflexivity.
  - intros H1 H2 ->. rewrite (name_guard_passes _ H1 H2). reflexivity.
  - intros H1 H2 H3 Hd. rewrite (name_guard_passes _ H1 H2), (is_None_false _ H3).
    unfold bind at 1, isinstance at 1, gets. rewrite Hd. reflexivity.
Qed.

(** X3: the guards do not ask that the name be a string.  A name that is
    neither None nor a string, given with a [dict] schema, passes them and
    the call fails in [type] with [TypeError], not [ValueError]; nothing has
    been made by then. *)
Theorem create_ook_type_non_string_name st name schema :
  (forall s, name <> VStr s) -> name <> VNone ->
  schema <> VNone -> isinstance_in (heap st) schema T_dict = true ->
  exists msg, create_ook_type name schema st = (Raise (TypeError msg), st).
Proof.
  intros Hstr Hname Hschema Hdict. eexists.
  apply create_ook_type_non_str; assumption.
Qed.

(** X4: when the constructor [SchemaType] refuses a plain [dict],
    [create_ook_type] lets that very exception through and returns no type;
    the class it had already made stays behind with an empty namespace, no
    schema bound to it, and the objects that existed are untouched. *)
Theorem create_ook_type_constructor_failure st s d items e :
  s <> "" ->
  heap st !! d = Some (CDict items) ->
  SchemaType_init (heap st ++ [CType s [T_ObjectType] ∅]) items = inl e ->
  create_ook_type (VStr s) (VRef d) st
  = (Raise e, mkState (heap st ++ [CType s [T_ObjectType] ∅]) (calls st)).
Proof.
  intros Hs Hd Hinit.
  rewrite (create_ook_type_dict_run _ _ _ _ Hs Hd). cbv zeta.
  rewrite Hinit. reflexivity.
Qed.

(** ** [create_ook_type] followed by validation *)

(** An instance of a type whose namespace binds a schema cell is a bound
    record under the rules of that cell. *)
Lemma instance_bound_record h c s schema_loc rules o items :
  h !! c = Some (CType s [T_ObjectType] {["OOK_SCHEMA" := VRef schema_loc]}) ->
  h !! schema_loc = Some (CSchemaType rules) ->
  h !! o = Some (CObject (T_user c) items) ->
  bound_record h (VRef o) = Some (items, rules).
Proof.
  intros Hc Hschema Ho.
  destruct (instance_of_bound_type h c s [T_ObjectType]
              {["OOK_SCHEMA" := VRef schema_loc]} (VRef schema_loc) o items)
    as [Hi Hg];
    [exact Hc | apply lookup_singleton_eq | left; reflexivity | exact Ho |].
  unfold bound_record. rewrite Hi, Hg.
  unfold items_of, schema_rules. rewrite Ho, Hschema. reflexivity.
Qed.

(** X5: a type made by [create_ook_type] validates its instances against the
    schema it was given.  After the call returns, in any later state that
    still holds the cells the call left, an instance of the returned type is
    validated by [validate_object] rule by rule against the rules of the
    [SchemaType] argument, or, for a plain [dict], against the rules the
    constructor made of it. *)
Theorem created_type_validates_instances st s :
  s <> "" ->
  (forall l rules,
      heap st !! l = Some (CSchemaType rules) ->
      exists t st1,
        create_ook_type (VStr s) (VRef l) st = (Return (VRef t), st1) /\
        forall st2 o items flag,
          (forall k cell, heap st1 !! k = Some cell -> heap st2 !! k = Some cell) ->
          heap st2 !! o = Some (CObject (T_user t) items) ->
          validate_object (VRef o) flag st2
          = (finish flag (object_violations (heap st2) items rules),
             mkState (heap st2) (calls st2 ++ object_calls items rules)))
  /\
  (forall d entries rules,
      heap st !! d = Some (CDict entries) ->
      SchemaType_init (heap st ++ [CType s [T_ObjectType] ∅]) entries = inr rules ->
      exists t st1,
        create_ook_type (VStr s) (VRef d) st = (Return (VRef t), st1) /\
        forall st2 o items flag,
          (forall k cell, heap st1 !! k = Some cell -> heap st2 !! k = Some cell) ->
          heap st2 !! o = Some (CObject (T_user t) items) ->
          validate_object (VRef o) flag st2
          = (finish flag (object_violations (heap st2) items rules),
             mkState (heap st2) (calls st2 ++ object_calls items rules))).
Proof.
  intros Hs. split.
  - intros l rules Hl. eexists. eexists.
    split; [apply (create_ook_type_SchemaType_run _ _ _ _ Hs Hl) |].
    cbn [heap]. intros st2 o items flag Hext Ho.
    apply validate_object_run.
    eapply instance_bound_record; [| | exact Ho].
    + apply Hext, lookup_snoc.
    + apply Hext, lookup_app_l_Some, Hl.
  - intros d entries rules Hd Hinit. eexists. eexists.
    split.
    { rewrite (create_ook_type_dict_run _ _ _ _ Hs Hd). cbv zeta.
      rewrite Hinit. reflexivity. }
    cbn [heap]. intros st2 o items flag Hext Ho.
    apply validate_object_run.
    eapply instance_bound_record; [| | exact Ho].
    + apply Hext, list_lookup_middle. reflexivity.
    + apply Hext, lookup_snoc2.
Qed.

(** X6: a plain [dict] is wrapped anew on every call.  Two calls of
    [create_ook_type] with the same plain [dict] return two distinct types
    bound to two distinct [SchemaType] objects, neither of them the [dict],
    which is left as it was. *)
Theorem create_ook_type_wraps_dict_each_time st s1 s2 d entries rules1 rules2 :
  s1 <> "" -> s2 <> "" ->
  heap st !! d = Some (CDict entries) ->
  SchemaType_init (heap st ++ [CType s1 [T_ObjectType] ∅]) entries = inr rules1 ->
  SchemaType_init
    ((heap st ++ [CType s1 [T_ObjectType] {["OOK_SCHEMA" := VRef (S (length (heap st)))]};
                  CSchemaType rules1])
     ++ [CType s2 [T_ObjectType] ∅]) entries
  = inr rules2 ->
  exists t1 t2 schema1 schema2 st1 st2,
    create_ook_type (VStr s1) (VRef d) st = (Return (VRef t1), st1) /\
    create_ook_type (VStr s2) (VRef d) st1 = (Return (VRef t2), st2) /\
    heap st2 !! t1 = Some (CType s1 [T_ObjectType] {["OOK_SCHEMA" := VRef schema1]}) /\
    heap st2 !! t2 = Some (CType s2 [T_ObjectType] {["OOK_SCHEMA" := VRef schema2]}) /\
    heap st2 !! schema1 = Some (CSchemaType rules1) /\
    heap st2 !! schema2 = Some (CSchemaType rules2) /\
    t1 <> t2 /\ schema1 <> schema2 /\ schema1 <> d /\ schema2 <> d /\
    heap st2 !! d = Some (CDict entries).
Proof.
  intros H1 H2 Hd Hinit1 Hinit2.
  pose proof (lookup_lt_Some _ _ _ Hd) as Hlt.
  set (n := length (heap st)) in *.
  set (c1 := CType s1 [T_ObjectType] {["OOK_SCHEMA" := VRef (S n)]}) in *.
  set (h1 := heap st ++ [c1; CSchemaType rules1]) in *.
  assert (Hlen1 : length h1 = S (S n))
    by (unfold h1; rewrite length_app; simpl; unfold n; lia).
  assert (Hd1 : h1 !! d = Some (CDict entries)) by (apply lookup_app_l_Some, Hd).
  exists n, (S (S n)), (S n), (S (S (S n))).
  eexists. eexists.
  split.
  { rewrite (create_ook_type_dict_run _ _ _ _ H1 Hd). cbv zeta.
    rewrite Hinit1. reflexivity. }
  split.
  { rewrite (create_ook_type_dict_run _ s2 d entries H2) by exact Hd1.
    cbv zeta. cbn [heap calls]. fold n c1 h1. rewrite Hinit2, Hlen1. reflexivity. }
  cbn [heap]. fold n c1 h1.
  repeat split; try lia.
  - apply lookup_app_l_Some. apply list_lookup_middle. reflexivity.
  - rewrite <- Hlen1. apply list_lookup_middle. reflexivity.
  - apply lookup_app_l_Some. apply lookup_snoc2.
  - rewrite <- Hlen1. apply lookup_snoc2.
  - apply lookup_app_l_Some, Hd1.
Qed.

(** What [create_ook_type] returns is a class cell at the location the heap
    ended at. *)
Lemma create_ook_type_returns_class st name schema t st1 :
  create_ook_type name schema st = (Return t, st1) ->
  exists s attrs,
    t = VRef (length (heap st)) /\
    heap st1 !! length (heap st) = Some (CType s [T_ObjectType] attrs).
Proof.
  intros H.
  destruct name as [| b | z | s | | l];
    try (edestruct (create_ook_type_bad_name st) as (e & st0 & He);
         [| rewrite He in H; discriminate H]; intros s; discriminate).
  destruct (is_None schema) eqn:Hnone.
  { destruct schema; try discriminate Hnone.
    destruct (create_ook_type_guards st (VStr s) VNone) as [m Hm]; [auto |].
    rewrite Hm in H. discriminate H. }
  destruct (isinstance_in (heap st) schema T_dict) eqn:Hd.
  2:{ destruct (create_ook_type_guards st (VStr s) schema) as [m Hm]; [auto |].
      rewrite Hm in H. discriminate H. }
  destruct s as [| c s].
  { destruct (create_ook_type_guards st (VStr "") schema) as [m Hm]; [auto |].
    rewrite Hm in H. discriminate H. }
  rewrite (create_ook_type_run st (String c s) schema ltac:(discriminate) Hnone Hd) in H.
  cbv zeta in H.
  destruct (isinstance_in _ schema T_SchemaType).
  - inversion H; subst. cbn [heap]. eexists. eexists.
    split; [reflexivity | apply lookup_snoc].
  - destruct (items_of _ schema) as [items |]; [| discriminate H].
    destruct (SchemaType_init _ items) as [e | rules]; [discriminate H |].
    inversion H; subst. cbn [heap]. eexists. eexists.
    split; [reflexivity | apply list_lookup_middle; reflexivity].
Qed.

(** X7: the type [create_ook_type] returns is a class, not a record.  Handed
    to [validate_object] or to [validate_value] in place of an instance, it
    is turned down with [ValueError] like any other non-[ObjectType], and no
    rule is evaluated. *)
Theorem created_type_is_not_a_record st name schema t st1 flag property_name :
  create_ook_type name schema st = (Return t, st1) ->
  (exists msg, validate_object t flag st1 = (Raise (ValueError msg), st1)) /\
  (exists msg, validate_value property_name t flag st1 = (Raise (ValueError msg), st1)).
Proof.
  intros H. apply create_ook_type_returns_class in H as (s & attrs & -> & Hc).
  assert (Hi : isinstance_in (heap st1) (VRef (length (heap st))) T_ObjectType = false).
  { unfold isinstance_in, type_of. rewrite Hc. reflexivity. }
  split.
  - eexists. unfold validate_object, bind at 1, isinstance, gets.
    rewrite Hi. reflexivity.
  - unfold validate_value.
    destruct property_name as [| b | z | [| c p] | | l]; try (eexists; reflexivity).
    cbn [String.length Nat.ltb Nat.leb is_None].
    unfold bind at 1, isinstance, gets. rewrite Hi. eexists; reflexivity.
Qed.

(** ** Further properties of [validate_object] and [validate_value] *)

Lemma rule_of_In rules name rule :
  rule_of rules name = Some rule -> In (name, rule) rules.
Proof.
  induction rules as [| [n r] rest IH]; simpl; [discriminate |].
  destruct (String.eqb n name) eqn:E.
  - intros H. inversion H; subst. apply String.eqb_eq in E. subst. left; reflexivity.
  - intros H. right. apply IH, H.
Qed.

Lemma rule_of_NoDup rules name rule :
  NoDup (map fst rules) -> In (name, rule) rules -> rule_of rules name = Some rule.
Proof.
  induction rules as [| [n r] rest IH]; simpl; [contradiction |].
  intros Hnd Hin. inversion Hnd as [| x xs Hnotin Hnd']; subst.
  destruct Hin as [Heq | Hin].
  - inversion Heq; subst. rewrite String.eqb_refl. reflexivity.
  - destruct (String.eqb n name) eqn:E.
    + apply String.eqb_eq in E. subst. exfalso. apply Hnotin.
      apply list_elem_of_In. apply (in_map fst _ _ Hin).
    + apply IH; assumption.
Qed.

Lemma object_violations_ext_in h (items1 items2 : gmap string PyVal) rules :
  (forall name rule, In (name, rule) rules -> items1 !! name = items2 !! name) ->
  object_violations h items1 rules = object_violations h items2 rules /\
  object_calls items1 rules = object_calls items2 rules.
Proof.
  intros Hext. unfold object_violations, object_calls. split; [f_equal |].
  - apply map_ext_in. intros [n r] Hin. unfold get_default.
    rewrite (Hext n r Hin). reflexivity.
  - apply map_ext_in. intros [n r] Hin. unfold get_default.
    rewrite (Hext n r Hin). reflexivity.
Qed.

Lemma object_violations_In h items rules name rule e :
  In (name, rule) rules ->
  In e (meta_validate_value h name rule (get_default items name VNone)) ->
  In e (object_violations h items rules).
Proof.
  intros Hin He. unfold object_violations. apply in_concat.
  exists (meta_validate_value h name rule (get_default items name VNone)).
  split; [| exact He].
  apply in_map_iff. exists (name, rule). split; [reflexivity | exact Hin].
Qed.

Lemma object_violations_nil h items rules name rule :
  object_violations h items rules = [] ->
  In (name, rule) rules ->
  meta_validate_value h name rule (get_default items name VNone) = [].
Proof.
  intros Hnil Hin.
  destruct (meta_validate_value h name rule (get_default items name VNone))
    as [| e es] eqn:E; [reflexivity |].
  assert (Hc : In e (object_violations h items rules)).
  { eapply object_violations_In; [exact Hin |]. rewrite E. left; reflexivity. }
  rewrite Hnil in Hc. contradiction.
Qed.

(** X8: a record bound to a schema with no rules always passes
    [validate_object] -- the empty list is returned whatever the flag and
    whatever the record stores, and the state is as it was -- while
    [validate_value] turns every property name down with [ValueError]. *)
Theorem empty_schema_validation st the_object items flag :
  bound_record (heap st) the_object = Some (items, []) ->
  validate_object the_object flag st = (Return [], st) /\
  forall property_name,
    exists msg,
      validate_value property_name the_object flag st = (Raise (ValueError msg), st).
Proof.
  intros Hb. split.
  - rewrite (validate_object_run _ _ _ _ _ Hb).
    unfold object_violations, object_calls, finish. simpl.
    rewrite app_nil_r. destruct st; reflexivity.
  - intros property_name.
    destruct property_name as [| b | z | s | | l]; try (eexists; reflexivity).
    destruct s as [| c s]; [eexists; reflexivity |].
    assert (Hs : String c s <> "") by discriminate.
    rewrite (validate_value_run _ _ _ _ _ _ Hs Hb).
    eexists; reflexivity.
Qed.

(** X9: what a record stores under names its schema does not have is never
    looked at.  Two records bound to the same rules whose storages agree on
    the names of the schema get the same outcome from [validate_object], with
    the same validator calls, however they differ elsewhere. *)
Theorem validate_object_ignores_unknown_properties
    st o1 o2 items1 items2 rules flag :
  bound_record (heap st) (VRef o1) = Some (items1, rules) ->
  bound_record (heap st) (VRef o2) = Some (items2, rules) ->
  (forall name rule, In (name, rule) rules -> items1 !! name = items2 !! name) ->
  validate_object (VRef o1) flag st = validate_object (VRef o2) flag st.
Proof.
  intros Hb1 Hb2 Hext.
  rewrite (validate_object_run _ _ _ _ _ Hb1), (validate_object_run _ _ _ _ _ Hb2).
  destruct (object_violations_ext_in (heap st) _ _ _ Hext) as [-> ->].
  reflexivity.
Qed.

(** X10: [validate_value] depends on the record only through the value
    stored under the property name.  Two records bound to the same rules
    that agree under that name get the same outcome, with the same validator
    call, whatever else they store. *)
Theorem validate_value_reads_one_property
    st o1 o2 items1 items2 rules name flag :
  bound_record (heap st) (VRef o1) = Some (items1, rules) ->
  bound_record (heap st) (VRef o2) = Some (items2, rules) ->
  items1 !! name = items2 !! name ->
  validate_value (VStr name) (VRef o1) flag st
  = validate_value (VStr name) (VRef o2) flag st.
Proof.
  intros Hb1 Hb2 Heq.
  destruct name as [| c name]; [reflexivity |].
  assert (Hs : String c name <> "") by discriminate.
  rewrite (validate_value_run _ _ _ _ _ _ Hs Hb1),
          (validate_value_run _ _ _ _ _ _ Hs Hb2).
  unfold get_default. rewrite Heq. reflexivity.
Qed.

(** X11: [validate_value] never reports what [validate_object] would not.
    On a bound record, for a non-empty name that has a rule, both calls
    return with the flag false, every violation of the property is among
    the violations of the object, and if the object has none then
    [validate_value] returns the empty list whatever the flag. *)
Theorem property_violations_among_object_violations
    st the_object items rules name rule :
  bound_record (heap st) the_object = Some (items, rules) ->
  name <> "" ->
  rule_of rules name = Some rule ->
  exists property_errors object_errors,
    fst (validate_value (VStr name) the_object false st) = Return property_errors /\
    fst (validate_object the_object false st) = Return object_errors /\
    (forall e, In e property_errors -> In e object_errors) /\
    (object_errors = [] ->
     forall flag, fst (validate_value (VStr name) the_object flag st) = Return []).
Proof.
  intros Hb Hname Hrule. pose proof (rule_of_In _ _ _ Hrule) as Hin.
  exists (meta_validate_value (heap st) name rule (get_default items name VNone)),
         (object_violations (heap st) items rules).
  repeat split.
  - rewrite (validate_value_run _ _ _ _ _ _ Hname Hb), Hrule. cbn [fst].
    apply finish_false.
  - rewrite (validate_object_run _ _ _ _ _ Hb). cbn [fst]. apply finish_false.
  - intros e He. eapply object_violations_In; eassumption.
  - intros Hnil flag.
    rewrite (validate_value_run _ _ _ _ _ _ Hname Hb), Hrule. cbn [fst].
    apply finish_empty. eapply object_violations_nil; eassumption.
Qed.

(** X12: when the names of the schema are distinct and none is empty,
    [validate_object] is [validate_value] run on each name of the schema in
    order: every one of those calls returns (flag false), and the list
    [validate_object] returns is the concatenation of what they return. *)
Theorem validate_object_is_validate_value_per_name st the_object items rules :
  bound_record (heap st) the_object = Some (items, rules) ->
  NoDup (map fst rules) ->
  (forall name, In name (map fst rules) -> name <> "") ->
  exists per_name,
    Forall2 (fun name errs =>
               fst (validate_value (VStr name) the_object false st) = Return errs)
            (map fst rules) per_name /\
    fst (validate_object the_object false st) = Return (concat per_name).
Proof.
  intros Hb Hnd Hne.
  exists (map (fun '(name, rule) =>
                 meta_validate_value (heap st) name rule (get_default items name VNone))
              rules).
  split.
  - assert (Hsub : forall l,
               (forall x, In x l -> In x rules) ->
               Forall2 (fun name errs =>
                          fst (validate_value (VStr name) the_object false st)
                          = Return errs)
                       (map fst l)
                       (map (fun '(name, rule) =>
                               meta_validate_value (heap st) name rule
                                 (get_default items name VNone)) l)).
    { induction l as [| [n r] l IH]; intros Hl; cbn [map fst]; constructor.
      - assert (Hin : In (n, r) rules) by (apply Hl; left; reflexivity).
        assert (Hn : n <> "") by (apply Hne; apply (in_map fst _ _ Hin)).
        rewrite (validate_value_run _ _ _ _ _ _ Hn Hb).
        rewrite (rule_of_NoDup _ _ _ Hnd Hin). cbn [fst]. apply finish_false.
      - apply IH. intros x Hx. apply Hl. right; exact Hx. }
    apply Hsub. auto.
  - rewrite (validate_object_run _ _ _ _ _ Hb). cbn [fst]. apply finish_false.
Qed.

(** X13: the guards of [validate_value] answer in the order they are
    written, each with its own message.  A bad property name is reported
    whatever the object is, before the object is looked at; then an object
    that is None; then one that is not an [ObjectType]; last a name the
    schema has no rule for. *)
Theorem validate_value_guard_messages st property_name ook_object flag :
  (property_name = VNone ->
   validate_value property_name ook_object flag st
   = (Raise (ValueError (dq +:+ "property_name" +:+ dq
                         +:+ " is required, cannot be None.")), st)) /\
  ((forall s, property_name <> VStr s) \/ property_name = VStr "" ->
   property_name <> VNone ->
   validate_value property_name ook_object flag st
   = (Raise (ValueError (dq +:+ "property_name" +:+ dq
                         +:+ " is not a valid string.")), st)) /\
  (forall name,
      property_name = VStr name -> name <> "" ->
      (ook_object = VNone ->
       validate_value property_name ook_object flag st
       = (Raise (ValueError (dq +:+ "ook_object" +:+ dq
                             +:+ " is required, cannot be None.")), st)) /\
      (ook_object <> VNone ->
       isinstance_in (heap st) ook_object T_ObjectType = false ->
       validate_value property_name ook_object flag st
       = (Raise (ValueError (dq +:+ "ook_object" +:+ dq
                             +:+ " must be ObjectType or child type of ObjectType.")),
          st)) /\
      (forall items rules,
          bound_record (heap st) ook_object = Some (items, rules) ->
          rule_of rules name = None ->
          validate_value property_name ook_object flag st
          = (Raise (ValueError (dq +:+ "property_name" +:+ dq
                                +:+ " is not a recognized property.")), st))).
Proof.
  split; [intros ->; reflexivity |].
  split.
  - intros [Hstr | ->] Hnone; [| reflexivity].
    destruct property_name as [| b | z | s | | l]; try reflexivity.
    + congruence.
    + exfalso. apply (Hstr s). reflexivity.
  - intros name -> Hname. repeat split.
    + intros ->. unfold validate_value.
      destruct name; [congruence | reflexivity].
    + intros Hobj Hi. unfold validate_value.
      destruct name; [congruence |]. cbn [String.length Nat.ltb Nat.leb].
      rewrite (is_None_false _ Hobj).
      unfold bind at 1, isinstance, gets. rewrite Hi. reflexivity.
    + intros items rules Hb Hrule.
      rewrite (validate_value_run _ _ _ _ _ _ Hname Hb), Hrule. reflexivity.
Qed.

End object_type.

(** ** The properties at work on the usage example *)

Definition demo_rules : list (string * PropertySchema) :=
  [("some_property", rule_any true); ("other_property", rule_any false)].

Definition demo_items : gmap string PyVal := {["other_property" := VStr "Enum1"]}.

Definition demo_items_None : gmap string PyVal :=
  <["some_property" := VNone]> {["other_property" := VStr "Enum1"]}.

Lemma demo_bound_2 : bound_record demo_heap (VRef 2) = Some (demo_items, demo_rules).
Proof. vm_compute. reflexivity. Qed.

Lemma demo_bound_4 : bound_record demo_heap (VRef 4) = Some (demo_items_None, demo_rules).
Proof. vm_compute. reflexivity. Qed.

Lemma demo_heap_wf : heap_wf demo_heap.
Proof.
  intros c name bases attrs Hc b Hin.
  destruct c as [| [| c]]; simpl in Hc; try discriminate Hc.
  - inversion Hc; subst. destruct Hin as [Hin | []]. discriminate Hin.
  - destruct c as [| [| [| c]]]; discriminate Hc.
Qed.

(** The instance that lacks [some_property]: one violation, two validator
    calls in schema order. *)
Lemma validate_object_scans_in_schema_order_witness :
  validate_object required_check (VRef 2) false demo_state
  = (Return ["The value for some_property is required."],
     mkState demo_heap
             [("some_property", rule_any true, VNone);
              ("other_property", rule_any false, VStr "Enum1")]).
Proof.
  destruct (validate_object_scans_in_schema_order required_check demo_state (VRef 2)
              demo_items demo_rules demo_bound_2) as [H _].
  rewrite H. vm_compute. reflexivity.
Defined.

Lemma validation_raise_contract_witness :
  fst (validate_object required_check (VRef 2) true demo_state)
  = Raise (ValidationException ["The value for some_property is required."]) /\
  fst (validate_object required_check (VRef 2) false demo_state)
  = Return ["The value for some_property is required."] /\
  fst (validate_value required_check (VStr "some_property") (VRef 2) true demo_state)
  = Raise (ValidationException ["The value for some_property is required."]) /\
  fst (validate_value required_check (VStr "other_property") (VRef 2) true demo_state)
  = Return [].
Proof.
  destruct (validation_raise_contract required_check demo_state (VRef 2)
              demo_items demo_rules demo_bound_2) as [(Hraise & Hret & _) Hvalue].
  destruct Hraise as (Hraise & _ & _); [vm_compute; discriminate |].
  destruct (Hvalue "some_property" (rule_any true)) as (Hvraise & _ & _);
    [discriminate | reflexivity |].
  destruct Hvraise as (Hvraise & _ & _); [vm_compute; discriminate |].
  destruct (Hvalue "other_property" (rule_any false)) as (_ & _ & Hempty);
    [discriminate | reflexivity |].
  rewrite Hraise, Hret, Hvraise, (Hempty eq_refl true).
  repeat split.
Defined.



(** The empty unicode name with the schema of [MyType]. *)
Lemma create_ook_type_empty_unicode_name_witness :
  (exists msg,
      create_ook_type init_empty_only VEmptyUnicode (VRef 0) demo_state
      = (Raise (TypeError msg), demo_state)) /\
  (forall msg st',
      create_ook_type init_empty_only VEmptyUnicode (VRef 0) demo_state
      <> (Raise (ValueError msg), st')).
Proof.
  apply (create_ook_type_empty_unicode_name init_empty_only demo_state (VRef 0)).
  - discriminate.
  - reflexivity.
Defined.

(** A type made from the empty plain dict at location 3. *)
Lemma create_ook_type_binds_schema_witness :
  exists s schema',
    VStr "A" = VStr s /\ s <> "" /\
    heap (snd (create_ook_type init_empty_only (VStr "A") (VRef 3) demo_state)) !! 5
    = Some (CType s [T_ObjectType] {["OOK_SCHEMA" := schema']}) /\
    schema' = VRef 6.
Proof.
  destruct (create_ook_type_binds_schema init_empty_only demo_state (VStr "A") (VRef 3)
              (VRef 5)
              (snd (create_ook_type init_empty_only (VStr "A") (VRef 3) demo_state)))
    as (s & schema' & Hname & Hs & _ & _ & Hcell & [(Hsch & _) | (_ & Hnew)] & _).
  - vm_compute. reflexivity.
  - vm_compute in Hsch. discriminate Hsch.
  - destruct Hnew as (items & rules & _ & _ & Hschema & _).
    exists s, schema'. repeat split; assumption.
Defined.

Lemma validate_object_idempotent_witness :
  exists errs st1 st2,
    validate_object required_check (VRef 2) false demo_state = (Return errs, st1) /\
    validate_object required_check (VRef 2) false st1 = (Return errs, st2).
Proof.
  exact (validate_object_idempotent required_check demo_state (VRef 2)
           demo_items demo_rules demo_bound_2).
Defined.

Lemma validation_never_mutates_witness :
  heap (snd (validate_object required_check (VRef 2) true demo_state)) = demo_heap /\
  heap (snd (validate_value required_check (VStr "some_property") (VRef 2) true demo_state))
  = demo_heap.
Proof.
  destruct (validation_never_mutates required_check demo_state
              (VStr "some_property") (VRef 2) true) as (Ho & Hv & _).
  split; assumption.
Defined.

(** The instance that stores None under [some_property] and the one that
    lacks it. *)
Lemma None_value_same_as_absent_witness :
  fst (validate_object required_check (VRef 4) false demo_state)
  = fst (validate_object required_check (VRef 2) false demo_state) /\
  fst (validate_value required_check (VStr "some_property") (VRef 4) false demo_state)
  = fst (validate_value required_check (VStr "some_property") (VRef 2) false demo_state).
Proof.
  destruct (None_value_same_as_absent required_check demo_state 4 2
              demo_items_None demo_items demo_rules "some_property" false
              demo_bound_4 demo_bound_2) as [Ho Hv].
  - reflexivity.
  - reflexivity.
  - intros n Hn. unfold demo_items_None, demo_items.
    apply lookup_insert_ne. congruence.
  - split; [exact Ho | apply Hv].
Defined.

(** Two types made from the schema of [MyType]. *)
Lemma create_ook_type_shares_SchemaType_witness :
  exists t1 t2 st1 st2,
    create_ook_type init_empty_only (VStr "A") (VRef 0) demo_state
    = (Return (VRef t1), st1) /\
    create_ook_type init_empty_only (VStr "B") (VRef 0) st1 = (Return (VRef t2), st2) /\
    t1 <> t2 /\
    heap st2 !! t1 = Some (CType "A" [T_ObjectType] {["OOK_SCHEMA" := VRef 0]}) /\
    heap st2 !! t2 = Some (CType "B" [T_ObjectType] {["OOK_SCHEMA" := VRef 0]}) /\
    heap st2 !! 0 = Some (CSchemaType demo_rules) /\
    length (heap st2) = length (heap demo_state) + 2.
Proof.
  apply (create_ook_type_shares_SchemaType init_empty_only demo_state "A" "B" 0 demo_rules);
    [discriminate | discriminate | reflexivity].
Defined.

(** ** An [ObjectType] instance whose type binds no schema *)





(** ** The further properties at work *)

(** The usage example with a non-empty plain dict (location 5) and a third
    instance that stores a property the schema does not have (location 6). *)
Definition demo_heap_more : list Cell :=
  demo_heap
  ++ [ CDict {["some_property" := VStr "int"]};
       CObject (T_user 1)
         (<["unknown_property" := VInt 9]> {["other_property" := VStr "Enum1"]}) ].

Definition demo_state_more : State := mkState demo_heap_more [].

Definition demo_items_more : gmap string PyVal :=
  <["unknown_property" := VInt 9]> {["other_property" := VStr "Enum1"]}.

(** A type with an empty schema and an instance of it. *)
Definition empty_schema_heap : list Cell :=
  [ CSchemaType [];
    CType "Empty" [T_ObjectType] {["OOK_SCHEMA" := VRef 0]};
    CObject (T_user 1) {["some_property" := VInt 7]} ].

Lemma demo_more_bound_2 :
  bound_record demo_heap_more (VRef 2) = Some (demo_items, demo_rules).
Proof. vm_compute. reflexivity. Qed.

Lemma demo_more_bound_6 :
  bound_record demo_heap_more (VRef 6) = Some (demo_items_more, demo_rules).
Proof. vm_compute. reflexivity. Qed.

Lemma create_ook_type_only_allocates_witness :
  exists new,
    snd (create_ook_type init_empty_only (VStr "A") (VRef 3) demo_state)
    = mkState (heap demo_state ++ new) (calls demo_state) /\
    length new <= 2 /\
    (forall l cell,
        heap demo_state !! l = Some cell ->
        heap (snd (create_ook_type init_empty_only (VStr "A") (VRef 3) demo_state)) !! l
        = Some cell).
Proof.
  exact (create_ook_type_only_allocates init_empty_only demo_state (VStr "A") (VRef 3)).
Defined.

(** Both arguments bad: the None name is reported.  The empty unicode name
    is let through to the schema guards. *)
Lemma create_ook_type_guard_messages_witness :
  create_ook_type init_empty_only VNone (VInt 7) demo_state
  = (Raise (ValueError ("The string " +:+ dq +:+ "name" +:+ dq +:+ " argument is required.")),
     demo_state) /\
  create_ook_type init_empty_only VEmptyUnicode VNone demo_state
  = (Raise (ValueError "The schema dictionary is required."), demo_state) /\
  create_ook_type init_empty_only (VStr "A") (VInt 7) demo_state
  = (Raise (ValueError "The schema must be a dict or SchemaType."), demo_state).
Proof.
  destruct (create_ook_type_guard_messages init_empty_only demo_state VNone (VInt 7))
    as (Hname & _ & _).
  destruct (create_ook_type_guard_messages init_empty_only demo_state VEmptyUnicode VNone)
    as (_ & Hnone & _).
  destruct (create_ook_type_guard_messages init_empty_only demo_state (VStr "A") (VInt 7))
    as (_ & _ & Hdict).
  split; [apply Hname; reflexivity |].
  split; [apply Hnone; [discriminate | discriminate | reflexivity] |].
  apply Hdict; [discriminate | discriminate | discriminate | reflexivity].
Defined.

(** An integer as the name, with the schema of [MyType]. *)
Lemma create_ook_type_non_string_name_witness :
  exists msg,
    create_ook_type init_empty_only (VInt 3) (VRef 0) demo_state
    = (Raise (TypeError msg), demo_state).
Proof.
  apply (create_ook_type_non_string_name init_empty_only demo_state (VInt 3) (VRef 0)).
  - intros s. discriminate.
  - discriminate.
  - discriminate.
  - reflexivity.
Defined.

(** The non-empty plain dict, which the constructor of the example refuses. *)
Lemma create_ook_type_constructor_failure_witness :
  create_ook_type init_empty_only (VStr "A") (VRef 5) demo_state_more
  = (Raise (ValueError "bad schema"),
     mkState (demo_heap_more ++ [CType "A" [T_ObjectType] ∅]) []).
Proof.
  apply (create_ook_type_constructor_failure init_empty_only demo_state_more "A" 5
           {["some_property" := VStr "int"]} (ValueError "bad schema")).
  - discriminate.
  - reflexivity.
  - vm_compute. reflexivity.
Defined.

(** A type made from the schema of [MyType], and a first instance of it that
    stores nothing. *)
Lemma created_type_validates_instances_witness :
  exists t st1,
    create_ook_type init_empty_only (VStr "A") (VRef 0) demo_state
    = (Return (VRef t), st1) /\
    validate_object required_check (VRef 6) false
      (mkState (heap st1 ++ [CObject (T_user t) ∅]) [])
    = (Return ["The value for some_property is required."],
       mkState (heap st1 ++ [CObject (T_user t) ∅])
               [("some_property", rule_any true, VNone);
                ("other_property", rule_any false, VNone)]).
Proof.
  destruct (created_type_validates_instances required_check init_empty_only
              demo_state "A") as [Hschema _]; [discriminate |].
  destruct (Hschema 0 demo_rules eq_refl) as (t & st1 & Hcreate & Hvalidate).
  exists t, st1. split; [exact Hcreate |].
  assert (Hrun : create_ook_type init_empty_only (VStr "A") (VRef 0) demo_state
                 = (Return (VRef 5),
                    mkState (demo_heap ++ [CType "A" [T_ObjectType]
                                             {["OOK_SCHEMA" := VRef 0]}]) []))
    by (vm_compute; reflexivity).
  rewrite Hrun in Hcreate. inversion Hcreate; subst t st1.
  rewrite (Hvalidate _ 6 ∅ false).
  - vm_compute. reflexivity.
  - intros k cell Hk. apply lookup_app_l_Some, Hk.
  - reflexivity.
Defined.

(** The empty plain dict at location 3, given twice. *)
Lemma create_ook_type_wraps_dict_each_time_witness :
  exists t1 t2 schema1 schema2 st1 st2,
    create_ook_type init_empty_only (VStr "A") (VRef 3) demo_state
    = (Return (VRef t1), st1) /\
    create_ook_type init_empty_only (VStr "B") (VRef 3) st1 = (Return (VRef t2), st2) /\
    heap st2 !! t1 = Some (CType "A" [T_ObjectType] {["OOK_SCHEMA" := VRef schema1]}) /\
    heap st2 !! t2 = Some (CType "B" [T_ObjectType] {["OOK_SCHEMA" := VRef schema2]}) /\
    heap st2 !! schema1 = Some (CSchemaType []) /\
    heap st2 !! schema2 = Some (CSchemaType []) /\
    t1 <> t2 /\ schema1 <> schema2 /\ schema1 <> 3 /\ schema2 <> 3 /\
    heap st2 !! 3 = Some (CDict ∅).
Proof.
  apply (create_ook_type_wraps_dict_each_time init_empty_only demo_state
           "A" "B" 3 ∅ [] []);
    [discriminate | discriminate | reflexivity | reflexivity | reflexivity].
Defined.

Lemma created_type_is_not_a_record_witness :
  (exists msg,
      validate_object required_check (VRef 5) true
        (snd (create_ook_type init_empty_only (VStr "A") (VRef 0) demo_state))
      = (Raise (ValueError msg),
         snd (create_ook_type init_empty_only (VStr "A") (VRef 0) demo_state))) /\
  (exists msg,
      validate_value required_check (VStr "some_property") (VRef 5) true
        (snd (create_ook_type init_empty_only (VStr "A") (VRef 0) demo_state))
      = (Raise (ValueError msg),
         snd (create_ook_type init_empty_only (VStr "A") (VRef 0) demo_state))).
Proof.
  apply (created_type_is_not_a_record required_check init_empty_only demo_state
           (VStr "A") (VRef 0)).
  vm_compute. reflexivity.
Defined.

Lemma empty_schema_validation_witness :
  validate_object required_check (VRef 2) true (mkState empty_schema_heap [])
  = (Return [], mkState empty_schema_heap []) /\
  exists msg,
    validate_value required_check (VStr "some_property") (VRef 2) true
      (mkState empty_schema_heap [])
    = (Raise (ValueError msg), mkState empty_schema_heap []).
Proof.
  destruct (empty_schema_validation required_check (mkState empty_schema_heap [])
              (VRef 2) {["some_property" := VInt 7]} true) as [Hobject Hvalue].
  - vm_compute. reflexivity.
  - split; [exact Hobject | apply Hvalue].
Defined.

Lemma demo_items_agree name rule :
  In (name, rule) demo_rules -> demo_items !! name = demo_items_more !! name.
Proof.
  intros [H | [H | []]]; inversion H; subst; vm_compute; reflexivity.
Qed.

(** The instance at 2 and the instance at 6, which stores an unknown
    property besides. *)
Lemma validate_object_ignores_unknown_properties_witness :
  validate_object required_check (VRef 2) false demo_state_more
  = validate_object required_check (VRef 6) false demo_state_more.
Proof.
  apply (validate_object_ignores_unknown_properties required_check demo_state_more
           2 6 demo_items demo_items_more demo_rules false
           demo_more_bound_2 demo_more_bound_6 demo_items_agree).
Defined.

Lemma validate_value_reads_one_property_witness :
  validate_value required_check (VStr "other_property") (VRef 2) true demo_state_more
  = validate_value required_check (VStr "other_property") (VRef 6) true demo_state_more.
Proof.
  apply (validate_value_reads_one_property required_check demo_state_more
           2 6 demo_items demo_items_more demo_rules "other_property" true
           demo_more_bound_2 demo_more_bound_6).
  vm_compute. reflexivity.
Defined.

Lemma property_violations_among_object_violations_witness :
  exists property_errors object_errors,
    fst (validate_value required_check (VStr "some_property") (VRef 2) false demo_state)
    = Return property_errors /\
    fst (validate_object required_check (VRef 2) false demo_state) = Return object_errors /\
    (forall e, In e property_errors -> In e object_errors) /\
    (object_errors = [] ->
     forall flag,
       fst (validate_value required_check (VStr "some_property") (VRef 2) flag demo_state)
       = Return []).
Proof.
  apply (property_violations_among_object_violations required_check demo_state (VRef 2)
           demo_items demo_rules "some_property" (rule_any true) demo_bound_2).
  - discriminate.
  - reflexivity.
Defined.

Lemma demo_rules_names_NoDup : NoDup (map fst demo_rules).
Proof.
  apply NoDup_cons_2.
  - rewrite list_elem_of_In. intros [H | []]. discriminate H.
  - apply NoDup_cons_2; [| apply NoDup_nil_2].
    rewrite list_elem_of_In. intros [].
Qed.

Lemma validate_object_is_validate_value_per_name_witness :
  exists per_name,
    Forall2 (fun name errs =>
               fst (validate_value required_check (VStr name) (VRef 2) false demo_state)
               = Return errs)
            (map fst demo_rules) per_name /\
    fst (validate_object required_check (VRef 2) false demo_state)
    = Return (concat per_name).
Proof.
  apply (validate_object_is_validate_value_per_name required_check demo_state (VRef 2)
           demo_items demo_rules demo_bound_2 demo_rules_names_NoDup).
  intros name [H | [H | []]]; subst; discriminate.
Defined.

(** Both arguments bad: the property name is reported.  Then the guards on
    the object, and the unknown name. *)
Lemma validate_value_guard_messages_witness :
  validate_value required_check VNone VNone true demo_state
  = (Raise (ValueError (dq +:+ "property_name" +:+ dq
                        +:+ " is required, cannot be None.")), demo_state) /\
  validate_value required_check (VInt 3) VNone true demo_state
  = (Raise (ValueError (dq +:+ "property_name" +:+ dq
                        +:+ " is not a valid string.")), demo_state) /\
  validate_value required_check (VStr "some_property") VNone true demo_state
  = (Raise (ValueError (dq +:+ "ook_object" +:+ dq
                        +:+ " is required, cannot be None.")), demo_state) /\
  validate_value required_check (VStr "some_property") (VRef 3) true demo_state
  = (Raise (ValueError (dq +:+ "ook_object" +:+ dq
                        +:+ " must be ObjectType or child type of ObjectType.")),
     demo_state) /\
  validate_value required_check (VStr "nope") (VRef 2) true demo_state
  = (Raise (ValueError (dq +:+ "property_name" +:+ dq
                        +:+ " is not a recognized property.")), demo_state).
Proof.
  destruct (validate_value_guard_messages required_check demo_state VNone VNone true)
    as (Hnone & _ & _).
  destruct (validate_value_guard_messages required_check demo_state (VInt 3) VNone true)
    as (_ & Hstr & _).
  destruct (validate_value_guard_messages required_check demo_state
              (VStr "some_property") VNone true) as (_ & _ & Hobj).
  destruct (Hobj "some_property" eq_refl) as (Hobj_none & _ & _); [discriminate |].
  destruct (validate_value_guard_messages required_check demo_state
              (VStr "some_property") (VRef 3) true) as (_ & _ & Hdict).
  destruct (Hdict "some_property" eq_refl) as (_ & Hnot_ook & _); [discriminate |].
  destruct (validate_value_guard_messages required_check demo_state
              (VStr "nope") (VRef 2) true) as (_ & _ & Hunknown).
  destruct (Hunknown "nope" eq_refl) as (_ & _ & Hno_rule); [discriminate |].
  split; [apply Hnone; reflexivity |].
  split; [apply Hstr; [left; intros s; discriminate | discriminate] |].
  split; [apply Hobj_none; reflexivity |].
  split; [apply Hnot_ook; [discriminate | reflexivity] |].
  apply (Hno_rule demo_items demo_rules demo_bound_2). reflexivity.
Defined.
